(** * Codex connector: the task supervisor of [src/index.js]

    A shallow embedding of the task bookkeeping of the MCP server in
    [src/index.js]: the in-memory task map and the table of live process
    handles, the persisted task file, the timers armed per task, and the
    callbacks that mutate a task record (stream data, heartbeat tick,
    timeout, cancel request, process close, process error, start-up load).

    Conventions of the embedding.
    - A JavaScript number holding milliseconds, a byte count or an exit
      code is a [Z]; an ISO-8601 timestamp ([new Date().toISOString()]) is
      the epoch millisecond it denotes, so that
      [Date.now() - new Date(startedAt).getTime()] is a subtraction.
    - [null] and an absent property are both [None].
    - Each callback is one step of the event loop: the record updates and
      the effects it performs are listed in source order, but the points at
      which an [async] callback yields to the loop are not modelled, and
      the clock reads of one callback return the same instant.  So the
      handlers of a child are taken as registered with its spawn, and a
      handler that writes the record after an [await] is taken to write
      it at once: the runs considered are those in which callbacks do not
      interleave.
    - The tasks file is kept as the map its JSON text encodes; writing and
      parsing that text back is taken to give the same records.  What a
      reader finds while the file is being written is described apart
      ([views_around_save]).
    - File appends and notifications are kept as an ordered list of
      effects; their text is abstracted to the kind of line written. *)

From Stdlib Require Import ZArith String Ascii List Bool Lia.
From stdpp Require Import gmap strings list fin_maps pretty sorting.

Open Scope string_scope.
Open Scope Z_scope.
Open Scope list_scope.

(** ** JavaScript values *)

(** Truthiness of a string-or-null value: [null] and the empty string are
    falsy. *)
Definition truthy (v : option string) : bool :=
  match v with
  | Some s => negb (String.eqb s "")
  | None => false
  end.

(** [a || b] on string-or-null values. *)
Definition js_or (a b : option string) : option string :=
  if truthy a then a else b.

(** [a || d] where [d] is a string constant. *)
Definition or_default (a : option string) (d : string) : string :=
  default d (js_or a (Some d)).

(** [`${code}`] for a number-or-null value. *)
Definition js_show (code : option Z) : string :=
  match code with
  | Some c => pretty c
  | None => "null"
  end.

(** [code === 0] and [code !== 0]; [null !== 0] holds. *)
Definition is_zero (code : option Z) : bool :=
  match code with
  | Some c => c =? 0
  | None => false
  end.

(** Rounding of the quotient [a / b] to the nearest integer, ties to even:
    the rounding of IEEE-754 double arithmetic. *)
Definition round_half_even (a b : Z) : Z :=
  let q := a / b in
  let r := a mod b in
  if 2 * r <? b then q
  else if b <? 2 * r then q + 1
  else if Z.even q then q else q + 1.

(** [(ms / 1000).toFixed(1)] for an integer [1000 <= ms < 60000].  The
    quotient is first rounded to a double with a 53-bit significand
    [m / 2^(52-k)]; [toFixed] then takes the integer [n] nearest to ten
    times that double, the larger one on a tie, and prints [n / 10]. *)
Definition toFixed1 (ms : Z) : string :=
  let k := Z.log2 (ms / 1000) in
  let m := round_half_even (ms * 2 ^ (52 - k)) 1000 in
  let n := (20 * m + 2 ^ (52 - k)) / 2 ^ (53 - k) in
  pretty (n / 10) +:+ "." +:+ pretty (n mod 10).

(** [formatDuration]: a duration in human readable form.  The source
    computes on doubles; for an integer [ms] below [2^53] the quotients it
    truncates with [Math.floor] are the integer quotients written here, and
    the properties of the two last branches are stated below that bound. *)
Definition formatDuration (ms : Z) : string :=
  if ms <? 1000 then pretty ms +:+ "ms"
  else if ms <? 60000 then toFixed1 ms +:+ "s"
  else if ms <? 3600000 then
    pretty (ms / 60000) +:+ "m " +:+ pretty ((ms mod 60000) / 1000) +:+ "s"
  else
    pretty (ms / 3600000) +:+ "h " +:+ pretty ((ms mod 3600000) / 60000) +:+ "m".

(** The signal name table. *)
Definition SIGNALS (n : Z) : option string :=
  match n with
  | 1 => Some "SIGHUP"
  | 2 => Some "SIGINT"
  | 3 => Some "SIGQUIT"
  | 6 => Some "SIGABRT"
  | 9 => Some "SIGKILL"
  | 14 => Some "SIGALRM"
  | 15 => Some "SIGTERM"
  | _ => None
  end.

Definition getSignalName (code : option Z) : option string :=
  match code with
  | None => None
  | Some c =>
      if 128 <? c then
        let signal := c - 128 in
        js_or (SIGNALS signal) (Some ("signal " +:+ pretty signal))
      else None
  end.

(** [String.prototype.trim] on the ASCII white space characters.  A string
    is the list of its bytes, so [js_trim] and [String.length] are those of
    the source on text made of ASCII characters only ([is_ascii_text]); the
    properties that read the output snippet are stated for such text. *)
Definition is_ascii_text (s : string) : bool :=
  forallb (fun a => (nat_of_ascii a <? 128)%nat) (list_ascii_of_string s).

Definition is_space (a : ascii) : bool :=
  let n := nat_of_ascii a in
  ((9 <=? n) && (n <=? 13))%nat || (n =? 32)%nat.

Fixpoint trim_start (l : list ascii) : list ascii :=
  match l with
  | a :: l' => if is_space a then trim_start l' else l
  | [] => []
  end.

Definition js_trim (s : string) : string :=
  string_of_list_ascii
    (rev (trim_start (rev (trim_start (list_ascii_of_string s))))).

(** [s.slice(-n)]: the last [n] characters. *)
Definition slice_last (n : nat) (s : string) : string :=
  let len := String.length s in
  String.substring (len - n) (Nat.min n len) s.

(** ** The task record *)

(** The object built by [handleCodexAgent] and stored in the [tasks] map,
    with the properties the close and error handlers add later
    ([completedAt], [duration], [durationFormatted], [result], [error]). *)
Record TaskRecord := {
  id : string;
  task : string;
  sandbox : string;
  workingDirectory : string;
  model : string;
  reasoningEffort : string;
  status : string;
  startedAt : Z;
  logFile : string;
  resultFile : string;
  debugFile : string;
  pid : option Z;
  command : string;
  codexPath : string;
  stdoutBytes : Z;
  stderrBytes : Z;
  lastActivityAt : Z;
  lastActivityType : string;
  lastOutputSnippet : string;
  heartbeatCount : Z;
  timeoutMs : Z;
  exitCode : option Z;
  exitSignal : option string;
  failureReason : option string;
  completedAt : option Z;
  duration : option Z;
  durationFormatted : option string;
  result : option string;
  error : option string
}.

(** [taskRecord.failureReason = v] *)
Definition set_failureReason (v : option string) (r : TaskRecord) : TaskRecord :=
  {| id := id r; task := task r; sandbox := sandbox r;
     workingDirectory := workingDirectory r; model := model r;
     reasoningEffort := reasoningEffort r; status := status r;
     startedAt := startedAt r; logFile := logFile r;
     resultFile := resultFile r; debugFile := debugFile r; pid := pid r;
     command := command r; codexPath := codexPath r;
     stdoutBytes := stdoutBytes r; stderrBytes := stderrBytes r;
     lastActivityAt := lastActivityAt r;
     lastActivityType := lastActivityType r;
     lastOutputSnippet := lastOutputSnippet r;
     heartbeatCount := heartbeatCount r; timeoutMs := timeoutMs r;
     exitCode := exitCode r; exitSignal := exitSignal r;
     failureReason := v;
     completedAt := completedAt r; duration := duration r;
     durationFormatted := durationFormatted r; result := result r;
     error := error r |}.

(** [taskRecord.status = v] *)
Definition set_status (v : string) (r : TaskRecord) : TaskRecord :=
  {| id := id r; task := task r; sandbox := sandbox r;
     workingDirectory := workingDirectory r; model := model r;
     reasoningEffort := reasoningEffort r; status := v;
     startedAt := startedAt r; logFile := logFile r;
     resultFile := resultFile r; debugFile := debugFile r; pid := pid r;
     command := command r; codexPath := codexPath r;
     stdoutBytes := stdoutBytes r; stderrBytes := stderrBytes r;
     lastActivityAt := lastActivityAt r;
     lastActivityType := lastActivityType r;
     lastOutputSnippet := lastOutputSnippet r;
     heartbeatCount := heartbeatCount r; timeoutMs := timeoutMs r;
     exitCode := exitCode r; exitSignal := exitSignal r;
     failureReason := failureReason r;
     completedAt := completedAt r; duration := duration r;
     durationFormatted := durationFormatted r; result := result r;
     error := error r |}.

(** [taskRecord.heartbeatCount++] *)
Definition incr_heartbeatCount (r : TaskRecord) : TaskRecord :=
  {| id := id r; task := task r; sandbox := sandbox r;
     workingDirectory := workingDirectory r; model := model r;
     reasoningEffort := reasoningEffort r; status := status r;
     startedAt := startedAt r; logFile := logFile r;
     resultFile := resultFile r; debugFile := debugFile r; pid := pid r;
     command := command r; codexPath := codexPath r;
     stdoutBytes := stdoutBytes r; stderrBytes := stderrBytes r;
     lastActivityAt := lastActivityAt r;
     lastActivityType := lastActivityType r;
     lastOutputSnippet := lastOutputSnippet r;
     heartbeatCount := heartbeatCount r + 1; timeoutMs := timeoutMs r;
     exitCode := exitCode r; exitSignal := exitSignal r;
     failureReason := failureReason r;
     completedAt := completedAt r; duration := duration r;
     durationFormatted := durationFormatted r; result := result r;
     error := error r |}.

(** [status === "running"] *)
Definition is_running (r : TaskRecord) : bool := String.eqb (status r) "running".

(** The terminal statuses of the task life cycle. *)
Definition terminal (s : string) : Prop :=
  s = "completed" \/ s = "failed" \/ s = "cancelled" \/ s = "interrupted".

(** ** Start-up load: [initDirs] *)

(** The body of the loop of [initDirs] on one entry of the saved object: a
    record saved as running is marked interrupted. *)
Definition reconcile (t : TaskRecord) : TaskRecord :=
  if is_running t then
    set_failureReason (Some "Server restarted while task was running")
      (set_status "interrupted" t)
  else t.

(** [initDirs]: [file] is the parsed content of the tasks file, as the list
    [Object.entries] yields, or [None] when reading or parsing it throws;
    the [catch] then leaves [tasks] as it is. *)
Definition initDirs (file : option (list (string * TaskRecord)))
    (tasks : gmap string TaskRecord) : gmap string TaskRecord :=
  match file with
  | Some savedTasks =>
      foldl (fun tasks e => <[fst e := reconcile (snd e)]> tasks) tasks savedTasks
  | None => tasks
  end.

(** ** The state of the server *)

(** The timers a task arms: the heartbeat interval, the task timeout, and
    the forced kill armed by the timeout callback or by a cancel request. *)
Inductive TimerKind := Heartbeat | Timeout | KillAfterTimeout | KillAfterCancel.

Record Timer := { t_kind : TimerKind; t_task : string; t_delay : Z }.

#[global] Instance TimerKind_eq_dec : EqDecision TimerKind.
Proof. solve_decision. Defined.

#[global] Instance Timer_eq_dec : EqDecision Timer.
Proof. solve_decision. Defined.

(** Lines appended to the log file of a task. *)
Inductive LogLine :=
| LogHeader
| LogSpawned
| LogOutput (stream : string)
| LogHeartbeat (n : Z)
| LogStallWarning
| LogTimeout
| LogCancelled
| LogSigkill
| LogExit (failure : option string)
| LogResultFound
| LogNoResult
| LogProcessError.

(** Notifications passed to [sendProgress]. *)
Inductive Progress :=
| PStarted
| PHeartbeat (n : Z)
| PStalled
| PTimeout
| PCancelling
| PFinished (st : string)
| PError.

(** What a callback does to the outside world. *)
Inductive Effect :=
| Spawn (taskId : string)
| Kill (taskId : string) (signal : string)
| AppendLog (taskId : string) (line : LogLine)
| SendProgress (taskId : string) (p : Progress)
| WriteDebug (taskId : string)
| WriteTasksFile.

(** The handle [spawn] returns. *)
Record ChildProcess := { child_pid : option Z }.

(** [tasks] and [activeProcesses] are the two module-level maps; [tasksFile]
    is the content of the persisted tasks file ([None]: no file yet);
    [children] holds the tasks of this server process whose child has not
    emitted [close] yet. *)
Record State := {
  tasks : gmap string TaskRecord;
  activeProcesses : gmap string ChildProcess;
  children : gset string;
  timers : list Timer;
  tasksFile : option (gmap string TaskRecord);
  effects : list Effect
}.

Definition init : State :=
  {| tasks := ∅; activeProcesses := ∅; children := ∅; timers := [];
     tasksFile := None; effects := [] |}.

Definition with_tasks (m : gmap string TaskRecord) (st : State) : State :=
  {| tasks := m; activeProcesses := activeProcesses st;
     children := children st; timers := timers st;
     tasksFile := tasksFile st; effects := effects st |}.

Definition with_timers (ts : list Timer) (st : State) : State :=
  {| tasks := tasks st; activeProcesses := activeProcesses st;
     children := children st; timers := ts;
     tasksFile := tasksFile st; effects := effects st |}.

Definition with_activeProcesses (m : gmap string ChildProcess) (st : State) : State :=
  {| tasks := tasks st; activeProcesses := m;
     children := children st; timers := timers st;
     tasksFile := tasksFile st; effects := effects st |}.

Definition with_children (c : gset string) (st : State) : State :=
  {| tasks := tasks st; activeProcesses := activeProcesses st;
     children := c; timers := timers st;
     tasksFile := tasksFile st; effects := effects st |}.

(** Effects are kept in the order they happen. *)
Definition emit (es : list Effect) (st : State) : State :=
  {| tasks := tasks st; activeProcesses := activeProcesses st;
     children := children st; timers := timers st;
     tasksFile := tasksFile st; effects := effects st ++ es |}.

(** The delay [setTimeout] and [setInterval] give a timer asked for after
    [after] milliseconds: the runtime takes 1 ms for a delay that is not
    between 1 and [TIMEOUT_MAX]. *)
Definition TIMEOUT_MAX : Z := 2147483647.

Definition timer_delay (after : Z) : Z :=
  if (1 <=? after) && (after <=? TIMEOUT_MAX) then after else 1.

(** [setTimeout] and [setInterval]; [t_delay] is the delay the timer runs
    with. *)
Definition arm (t : Timer) (st : State) : State :=
  with_timers (timers st ++ [t]) st.

(** [clearInterval] and [clearTimeout] on the timer of kind [k] of a task. *)
Definition is_timer (k : TimerKind) (taskId : string) (t : Timer) : bool :=
  bool_decide (t_kind t = k) && String.eqb (t_task t) taskId.

Definition clearTimer (k : TimerKind) (taskId : string) (st : State) : State :=
  with_timers (filter (fun t => is_timer k taskId t = false) (timers st)) st.

(** [saveTasks]: the whole map is written over the tasks file. *)
Definition saveTasks (st : State) : State :=
  {| tasks := tasks st; activeProcesses := activeProcesses st;
     children := children st; timers := timers st;
     tasksFile := Some (tasks st); effects := effects st ++ [WriteTasksFile] |}.

(** The server starts again: the maps and timers of the old process are
    gone, and [main] loads the tasks file into an empty map.  Nothing is
    spawned and no handle is registered.  The keys of the saved object are
    distinct, so the order in which the loop visits its entries does not
    show in the result. *)
Definition restart (st : State) : State :=
  {| tasks := initDirs (map_to_list <$> tasksFile st) ∅;
     activeProcesses := ∅; children := ∅; timers := [];
     tasksFile := tasksFile st; effects := effects st |}.

(** ** Callbacks of a running task *)

(** [updateActivity(type, bytes, snippet)], with the clock read [now].  The
    stream handlers always pass the chunk as [snippet], so the guard
    [if (snippet)] on it holds. *)
Definition updateActivity (type : string) (bytes : Z) (snippet : string)
    (now : Z) (r : TaskRecord) : TaskRecord :=
  let cleaned := slice_last 200 (js_trim snippet) in
  {| id := id r; task := task r; sandbox := sandbox r;
     workingDirectory := workingDirectory r; model := model r;
     reasoningEffort := reasoningEffort r; status := status r;
     startedAt := startedAt r; logFile := logFile r;
     resultFile := resultFile r; debugFile := debugFile r; pid := pid r;
     command := command r; codexPath := codexPath r;
     stdoutBytes :=
       if String.eqb type "stdout" then stdoutBytes r + bytes else stdoutBytes r;
     stderrBytes :=
       if String.eqb type "stderr" then stderrBytes r + bytes else stderrBytes r;
     lastActivityAt := now;
     lastActivityType := type;
     lastOutputSnippet :=
       if (10 <? String.length cleaned)%nat then cleaned else lastOutputSnippet r;
     heartbeatCount := heartbeatCount r; timeoutMs := timeoutMs r;
     exitCode := exitCode r; exitSignal := exitSignal r;
     failureReason := failureReason r;
     completedAt := completedAt r; duration := duration r;
     durationFormatted := durationFormatted r; result := result r;
     error := error r |}.

(** The [data] handlers of [codex.stdout] and [codex.stderr]. *)
Definition onData (stream : string) (taskId : string) (bytes : Z)
    (data : string) (now : Z) (st : State) : State :=
  match tasks st !! taskId with
  | Some r =>
      emit [AppendLog taskId (LogOutput stream)]
        (with_tasks (<[taskId := updateActivity stream bytes data now r]> (tasks st)) st)
  | None => st
  end.

(** The callback of [heartbeatInterval], every 30 seconds. *)
Definition heartbeatTick (taskId : string) (now : Z) (st : State) : State :=
  match tasks st !! taskId with
  | Some r =>
      if negb (is_running r) then clearTimer Heartbeat taskId st
      else
        let r' := incr_heartbeatCount r in
        let lastActivity := now - lastActivityAt r' in
        let beat :=
          [AppendLog taskId (LogHeartbeat (heartbeatCount r'));
           SendProgress taskId (PHeartbeat (heartbeatCount r'))] in
        let warn :=
          if 120000 <? lastActivity
          then [AppendLog taskId LogStallWarning; SendProgress taskId PStalled]
          else [] in
        saveTasks (emit (beat ++ warn) (with_tasks (<[taskId := r']> (tasks st)) st))
  | None => st
  end.

(** The failure reason the timeout callback records. *)
Definition timeoutReason (elapsed limit : Z) : string :=
  "Timeout after " +:+ formatDuration elapsed +:+
  " (limit: " +:+ formatDuration limit +:+ ")".

(** The callback of the [timeout] timer. *)
Definition timeoutCallback (taskId : string) (now : Z) (st : State) : State :=
  match tasks st !! taskId with
  | Some r =>
      let elapsed := now - startedAt r in
      let r' := set_failureReason (Some (timeoutReason elapsed (timeoutMs r))) r in
      arm {| t_kind := KillAfterTimeout; t_task := taskId; t_delay := 5000 |}
        (emit [AppendLog taskId LogTimeout; SendProgress taskId PTimeout;
               Kill taskId "SIGTERM"]
           (with_tasks (<[taskId := r']> (tasks st)) st))
  | None => st
  end.

(** The forced kill armed by the timeout callback. *)
Definition killAfterTimeout (taskId : string) (st : State) : State :=
  match tasks st !! taskId with
  | Some r => if is_running r then emit [Kill taskId "SIGKILL"] st else st
  | None => st
  end.

(** The forced kill armed by a cancel request. *)
Definition killAfterCancel (taskId : string) (st : State) : State :=
  match tasks st !! taskId with
  | Some r =>
      if is_running r
      then emit [Kill taskId "SIGKILL"; AppendLog taskId LogSigkill] st
      else st
  | None => st
  end.

(** The failure reason the close handler derives: an earlier reason is
    kept, otherwise the signal and the exit code decide. *)
Definition closeReason (earlier : option string) (code : option Z)
    (signal : option string) : option string :=
  let signalName := js_or signal (getSignalName code) in
  if truthy earlier then earlier
  else if truthy signal then
    Some ("Killed by signal: " +:+ default "" signal)
  else if truthy signalName && negb (is_zero code) then
    Some ("Killed by " +:+ default "" signalName +:+
          " (exit code " +:+ js_show code +:+ ")")
  else if negb (is_zero code) then
    Some ("Exited with code " +:+ js_show code)
  else earlier.

(** The update of the record at the end of the close handler. *)
Definition closeRecord (code : option Z) (signal : option string)
    (resultText : option string) (now : Z) (r : TaskRecord) : TaskRecord :=
  let elapsed := now - startedAt r in
  let failure := closeReason (failureReason r) code signal in
  let signalName := js_or signal (getSignalName code) in
  {| id := id r; task := task r; sandbox := sandbox r;
     workingDirectory := workingDirectory r; model := model r;
     reasoningEffort := reasoningEffort r;
     status := if is_zero code then "completed" else "failed";
     startedAt := startedAt r; logFile := logFile r;
     resultFile := resultFile r; debugFile := debugFile r;
     pid := None;
     command := command r; codexPath := codexPath r;
     stdoutBytes := stdoutBytes r; stderrBytes := stderrBytes r;
     lastActivityAt := lastActivityAt r;
     lastActivityType := lastActivityType r;
     lastOutputSnippet := lastOutputSnippet r;
     heartbeatCount := heartbeatCount r; timeoutMs := timeoutMs r;
     exitCode := code;
     exitSignal := js_or signal signalName;
     failureReason := if truthy failure then failure else failureReason r;
     completedAt := Some now;
     duration := Some elapsed;
     durationFormatted := Some (formatDuration elapsed);
     result := resultText;
     error := error r |}.

(** The [close] handler of the child: [resultText] is the content of the
    result file, [None] when reading it throws. *)
Definition closeHandler (taskId : string) (code : option Z)
    (signal : option string) (resultText : option string) (now : Z)
    (st : State) : State :=
  let st := clearTimer Heartbeat taskId st in
  let st := clearTimer Timeout taskId st in
  let st := with_activeProcesses (delete taskId (activeProcesses st)) st in
  match tasks st !! taskId with
  | Some r =>
      let r' := closeRecord code signal resultText now r in
      let found :=
        match resultText with Some _ => LogResultFound | None => LogNoResult end in
      saveTasks
        (emit [AppendLog taskId (LogExit (closeReason (failureReason r) code signal));
               AppendLog taskId found;
               SendProgress taskId (PFinished (status r'));
               WriteDebug taskId]
           (with_tasks (<[taskId := r']> (tasks st)) st))
  | None => st
  end.

(** The update of the record in the [error] handler of the child. *)
Definition errorRecord (message : string) (errCode : option string) (now : Z)
    (r : TaskRecord) : TaskRecord :=
  let elapsed := now - startedAt r in
  let failure :=
    "Process error: " +:+ message +:+
    " (" +:+ default "" (js_or errCode (Some "unknown")) +:+ ")" in
  {| id := id r; task := task r; sandbox := sandbox r;
     workingDirectory := workingDirectory r; model := model r;
     reasoningEffort := reasoningEffort r;
     status := "failed";
     startedAt := startedAt r; logFile := logFile r;
     resultFile := resultFile r; debugFile := debugFile r;
     pid := None;
     command := command r; codexPath := codexPath r;
     stdoutBytes := stdoutBytes r; stderrBytes := stderrBytes r;
     lastActivityAt := lastActivityAt r;
     lastActivityType := lastActivityType r;
     lastOutputSnippet := lastOutputSnippet r;
     heartbeatCount := heartbeatCount r; timeoutMs := timeoutMs r;
     exitCode := exitCode r; exitSignal := exitSignal r;
     failureReason := Some failure;
     completedAt := Some now;
     duration := Some elapsed;
     durationFormatted := Some (formatDuration elapsed);
     result := result r;
     error := Some message |}.

(** The [error] handler of the child. *)
Definition errorHandler (taskId : string) (message : string)
    (errCode : option string) (now : Z) (st : State) : State :=
  let st := clearTimer Heartbeat taskId st in
  let st := clearTimer Timeout taskId st in
  let st := with_activeProcesses (delete taskId (activeProcesses st)) st in
  match tasks st !! taskId with
  | Some r =>
      saveTasks
        (emit [WriteDebug taskId]
           (with_tasks (<[taskId := errorRecord message errCode now r]> (tasks st))
              (emit [AppendLog taskId LogProcessError; SendProgress taskId PError] st)))
  | None => st
  end.

(** ** Requests *)

(** The result a tool handler returns: the text and the [isError] flag. *)
Record ToolResult := { text : string; isError : bool }.

(** [handleCodexCancel].  [appendError] is [Some message] when appending the
    cancellation line to the log throws; the [catch] then answers without
    having signalled the child. *)
Definition handleCodexCancel (taskId : string) (appendError : option string)
    (st : State) : ToolResult * State :=
  match tasks st !! taskId with
  | None => ({| text := "Task not found: " +:+ taskId; isError := true |}, st)
  | Some taskRecord =>
      if negb (is_running taskRecord) then
        ({| text := "Task " +:+ taskId +:+ " is not running (status: " +:+
                    status taskRecord +:+ ")";
            isError := false |}, st)
      else
        match activeProcesses st !! taskId with
        | None =>
            ({| text := "Task " +:+ taskId +:+ " has no active process handle";
                isError := true |}, st)
        | Some codex =>
            let st1 :=
              with_tasks
                (<[taskId := set_failureReason (Some "Cancelled by user") taskRecord]>
                   (tasks st)) st in
            match appendError with
            | Some message =>
                ({| text := "Failed to cancel task: " +:+ message;
                    isError := true |}, st1)
            | None =>
                ({| text := "Sent SIGTERM to task " +:+ taskId +:+ " (PID " +:+
                            js_show (pid taskRecord) +:+ "). Task will be cancelled.";
                    isError := false |},
                 arm {| t_kind := KillAfterCancel; t_task := taskId; t_delay := 5000 |}
                   (emit [AppendLog taskId LogCancelled;
                          SendProgress taskId PCancelling;
                          Kill taskId "SIGTERM"] st1))
            end
        end
  end.

(** The arguments of the [codex_agent] tool. *)
Record AgentArgs := {
  arg_task : string;
  arg_sandbox : option string;
  arg_workingDirectory : string;
  arg_model : option string;
  arg_reasoningEffort : option string;
  arg_async : bool;
  arg_timeoutMs : option Z
}.

Definition DEFAULT_MODEL : string := "gpt-5.2-codex".
Definition DEFAULT_REASONING_EFFORT : string := "high".

(** The double quote character. *)
Definition dquote : string := String (ascii_of_nat 34) EmptyString.

(** [a.includes(' ') ? `"${a}"` : a] *)
Definition quoteArg (a : string) : string :=
  if existsb (Ascii.eqb " "%char) (list_ascii_of_string a)
  then dquote +:+ a +:+ dquote else a.

(** [path.join] of a directory and a file name, for a directory path in
    normal form (no trailing separator, no empty, [.] or [..] segment) and a
    plain file name. *)
Definition join (dir name : string) : string := dir +:+ "/" +:+ name.

Section Server.

(** The path of the codex binary found at start-up, and the home directory
    of the user. *)
Variable CODEX_PATH : string.
Variable homedir : string.

Definition DATA_DIR : string := join homedir ".codex-connector".
Definition LOGS_DIR : string := join DATA_DIR "logs".

(** The record [handleCodexAgent] creates; [childPid] is [None] until the
    child is spawned. *)
Definition newTaskRecord (taskId : string) (args : AgentArgs)
    (childPid : option Z) (now : Z) : TaskRecord :=
  let sandbox := or_default (arg_sandbox args) "danger-full-access" in
  let model := or_default (arg_model args) DEFAULT_MODEL in
  let reasoningEffort :=
    or_default (arg_reasoningEffort args) DEFAULT_REASONING_EFFORT in
  let timeoutMs := default 0 (arg_timeoutMs args) in
  let logFile := join LOGS_DIR (taskId +:+ ".log") in
  let resultFile := join LOGS_DIR (taskId +:+ ".result") in
  let debugFile := join LOGS_DIR (taskId +:+ ".debug.json") in
  let codexArgs :=
    ["exec"; "--full-auto"; "--model"; model; "-c";
     "reasoning_effort=" +:+ dquote +:+ reasoningEffort +:+ dquote;
     "--sandbox"; sandbox; "--output-last-message"; resultFile;
     arg_task args] in
  let fullCommand :=
    CODEX_PATH +:+ " " +:+ String.concat " " (map quoteArg codexArgs) in
  {| id := taskId; task := arg_task args; sandbox := sandbox;
     workingDirectory := arg_workingDirectory args; model := model;
     reasoningEffort := reasoningEffort;
     status := "running";
     startedAt := now; logFile := logFile; resultFile := resultFile;
     debugFile := debugFile;
     pid := childPid;
     command := fullCommand; codexPath := CODEX_PATH;
     stdoutBytes := 0; stderrBytes := 0;
     lastActivityAt := now; lastActivityType := "started";
     lastOutputSnippet := ""; heartbeatCount := 0;
     timeoutMs := timeoutMs;
     exitCode := None; exitSignal := None; failureReason := None;
     completedAt := None; duration := None; durationFormatted := None;
     result := None; error := None |}.

(** [handleCodexAgent] up to the point where the handlers of the child are
    registered: [taskId] is the identifier drawn for the task, [childPid]
    the pid of the spawned child.  The answer to the caller (at once in
    async mode, after the close or error handler otherwise) is not
    modelled. *)
Definition handleCodexAgent (taskId : string) (args : AgentArgs)
    (childPid : option Z) (now : Z) (st : State) : State :=
  let timeoutMs := default 0 (arg_timeoutMs args) in
  let st :=
    saveTasks
      (with_tasks (<[taskId := newTaskRecord taskId args None now]> (tasks st)) st) in
  let st :=
    emit [WriteDebug taskId; AppendLog taskId LogHeader;
          SendProgress taskId PStarted; Spawn taskId] st in
  let st :=
    with_tasks (<[taskId := newTaskRecord taskId args childPid now]> (tasks st)) st in
  let st :=
    with_activeProcesses
      (<[taskId := {| child_pid := childPid |}]> (activeProcesses st)) st in
  let st := with_children ({[taskId]} ∪ children st) st in
  let st := saveTasks (emit [AppendLog taskId LogSpawned] st) in
  let st :=
    arm {| t_kind := Heartbeat; t_task := taskId; t_delay := 30000 |} st in
  if 0 <? timeoutMs
  then arm {| t_kind := Timeout; t_task := taskId;
              t_delay := timer_delay timeoutMs |} st
  else st.

(** ** The event loop *)

(** What can happen to the server: a request, a timer that fires, an event
    of a child, or a restart of the server process. *)
Inductive Event :=
| EvStart (taskId : string) (args : AgentArgs) (childPid : option Z) (now : Z)
| EvData (taskId : string) (stream : string) (bytes : Z) (data : string) (now : Z)
| EvHeartbeat (taskId : string) (now : Z)
| EvTimeout (taskId : string) (now : Z)
| EvKillAfterTimeout (taskId : string)
| EvKillAfterCancel (taskId : string)
| EvClose (taskId : string) (code : option Z) (signal : option string)
    (resultText : option string) (now : Z)
| EvError (taskId : string) (message : string) (errCode : option string) (now : Z)
| EvCancel (taskId : string) (appendError : option string)
| EvRestart.

(** A timer that fired once is gone. *)
Fixpoint fired (k : TimerKind) (taskId : string) (ts : list Timer) : list Timer :=
  match ts with
  | t :: ts' => if is_timer k taskId t then ts' else t :: fired k taskId ts'
  | [] => []
  end.

(** An identifier is drawn fresh; a timer fires only while armed; a child
    emits events until it has emitted [close]. *)
Definition enabled (ev : Event) (st : State) : bool :=
  match ev with
  | EvStart taskId _ _ _ => bool_decide (tasks st !! taskId = None)
  | EvData taskId _ _ _ _ => bool_decide (taskId ∈ children st)
  | EvHeartbeat taskId _ => existsb (is_timer Heartbeat taskId) (timers st)
  | EvTimeout taskId _ => existsb (is_timer Timeout taskId) (timers st)
  | EvKillAfterTimeout taskId => existsb (is_timer KillAfterTimeout taskId) (timers st)
  | EvKillAfterCancel taskId => existsb (is_timer KillAfterCancel taskId) (timers st)
  | EvClose taskId _ _ _ _ => bool_decide (taskId ∈ children st)
  | EvError taskId _ _ _ => bool_decide (taskId ∈ children st)
  | EvCancel _ _ => true
  | EvRestart => true
  end.

Definition handle (ev : Event) (st : State) : State :=
  match ev with
  | EvStart taskId args childPid now => handleCodexAgent taskId args childPid now st
  | EvData taskId stream bytes data now => onData stream taskId bytes data now st
  | EvHeartbeat taskId now => heartbeatTick taskId now st
  | EvTimeout taskId now =>
      timeoutCallback taskId now (with_timers (fired Timeout taskId (timers st)) st)
  | EvKillAfterTimeout taskId =>
      killAfterTimeout taskId (with_timers (fired KillAfterTimeout taskId (timers st)) st)
  | EvKillAfterCancel taskId =>
      killAfterCancel taskId (with_timers (fired KillAfterCancel taskId (timers st)) st)
  | EvClose taskId code signal resultText now =>
      closeHandler taskId code signal resultText now
        (with_children (children st ∖ {[taskId]}) st)
  | EvError taskId message errCode now => errorHandler taskId message errCode now st
  | EvCancel taskId appendError => snd (handleCodexCancel taskId appendError st)
  | EvRestart => restart st
  end.

(** One turn of the loop, and a run of the server from a state. *)
Definition step (st : State) (ev : Event) (st' : State) : Prop :=
  enabled ev st = true /\ st' = handle ev st.

Fixpoint run (evs : list Event) (st : State) : option State :=
  match evs with
  | [] => Some st
  | ev :: evs' => if enabled ev st then run evs' (handle ev st) else None
  end.

(** The states the server can be in, from a first start without a tasks
    file. *)
Inductive reachable : State -> Prop :=
| reachable_init : reachable init
| reachable_step st ev st' : reachable st -> step st ev st' -> reachable st'.

End Server.

(** ** Sample data *)

Definition sample_args : AgentArgs :=
  {| arg_task := "fix the failing test"; arg_sandbox := None;
     arg_workingDirectory := "/work/repo"; arg_model := None;
     arg_reasoningEffort := None; arg_async := true;
     arg_timeoutMs := Some 1000 |}.

(** A server that has started one task, with a timeout of one second. *)
Definition sample_started : State :=
  handleCodexAgent "/usr/bin/codex" "/home/dev" "ab12cd34" sample_args
    (Some 4242) 1700000000000 init.

(** The record of that task, as created. *)
Definition sample_record : TaskRecord :=
  newTaskRecord "/usr/bin/codex" "/home/dev" "ab12cd34" sample_args
    (Some 4242) 1700000000000.

(** The record is running while no handle is registered for it, as between
    the creation of the record and the spawn of the child. *)
Definition sample_no_handle : State :=
  with_activeProcesses ∅ sample_started.

(** ** Invariant and observations *)

(** The shape of a record the server can hold: running or interrupted
    without a completion time, completed or failed with one. *)
Definition record_ok (r : TaskRecord) : Prop :=
  (status r = "running" /\ completedAt r = None) \/
  ((status r = "completed" \/ status r = "failed") /\ is_Some (completedAt r)) \/
  (status r = "interrupted" /\ completedAt r = None).

Definition map_ok (m : gmap string TaskRecord) : Prop :=
  forall k r, m !! k = Some r -> record_ok r.

(** The invariant, on the task map, the tasks file and the open children:
    records are well shaped in memory and on disk; a running record belongs
    to a child that has not closed yet; the tasks file holds the heartbeat
    count of every record that is no longer running. *)
Record InvC (m : gmap string TaskRecord) (f : option (gmap string TaskRecord))
    (c : gset string) : Prop := {
  inv_tasks : map_ok m;
  inv_file : forall d, f = Some d -> map_ok d;
  inv_children : forall k r, m !! k = Some r -> status r = "running" -> k ∈ c;
  inv_saved : forall k r, m !! k = Some r -> status r <> "running" ->
    exists d r0, f = Some d /\ d !! k = Some r0 /\
                 heartbeatCount r0 = heartbeatCount r
}.

Definition Inv (st : State) : Prop :=
  InvC (tasks st) (tasksFile st) (children st).

(** The effects of a heartbeat tick of a task: the heartbeat line and
    notification, and the stall warning that may follow them. *)
Definition is_heartbeat_effect (taskId : string) (e : Effect) : bool :=
  match e with
  | AppendLog t (LogHeartbeat _) => String.eqb t taskId
  | AppendLog t LogStallWarning => String.eqb t taskId
  | SendProgress t (PHeartbeat _) => String.eqb t taskId
  | SendProgress t PStalled => String.eqb t taskId
  | _ => false
  end.

(** From [st] to [st'] effects were only added, none of them a heartbeat of
    the task. *)
Definition quiet (taskId : string) (st st' : State) : Prop :=
  exists new, effects st' = effects st ++ new /\
              Forall (fun e => is_heartbeat_effect taskId e = false) new.

(** ** Further observations *)

(** The task an event belongs to; a restart belongs to none. *)
Definition event_task (ev : Event) : option string :=
  match ev with
  | EvStart t _ _ _ | EvData t _ _ _ _ | EvHeartbeat t _ | EvTimeout t _
  | EvKillAfterTimeout t | EvKillAfterCancel t | EvClose t _ _ _ _
  | EvError t _ _ _ | EvCancel t _ => Some t
  | EvRestart => None
  end.

(** A chunk of output of a child: the stream it came on, its size in bytes,
    its text and the time it arrived. *)
Record Chunk := {
  c_stream : string;
  c_bytes : Z;
  c_data : string;
  c_now : Z
}.

(** The [data] handler run on a sequence of chunks of one task. *)
Definition feed (taskId : string) (chunks : list Chunk) (st : State) : State :=
  foldl (fun st c => onData (c_stream c) taskId (c_bytes c) (c_data c) (c_now c) st)
    st chunks.

(** The bytes a sequence of chunks carries on one stream. *)
Definition bytes_on (stream : string) (chunks : list Chunk) : Z :=
  foldr (fun c acc => if String.eqb (c_stream c) stream then c_bytes c + acc else acc)
    0 chunks.

(** The invariant on handles and timers, on the task map, the handle table,
    the open children, the timers and the tasks file: a registered handle
    belongs to an open child and to a running record with the same pid; a
    heartbeat or timeout timer belongs to a registered handle; a timeout
    timer belongs to a record with a positive timeout and runs with the
    delay that timeout gives; and a record that is
    not running and whose child has closed reads back from the tasks file
    as it is in memory. *)
Record InvAC (m : gmap string TaskRecord) (a : gmap string ChildProcess)
    (c : gset string) (ts : list Timer) (f : option (gmap string TaskRecord))
    : Prop := {
  h_handle : forall k h, a !! k = Some h ->
    k ∈ c /\ exists r, m !! k = Some r /\ status r = "running" /\ pid r = child_pid h;
  h_timer : forall t, t ∈ ts -> t_kind t = Heartbeat \/ t_kind t = Timeout ->
    is_Some (a !! t_task t);
  h_timeout : forall t, t ∈ ts -> t_kind t = Timeout ->
    exists r, m !! t_task t = Some r /\ t_delay t = timer_delay (timeoutMs r) /\
              0 < timeoutMs r;
  h_saved : forall k r, m !! k = Some r -> status r <> "running" -> k ∉ c ->
    exists d r0, f = Some d /\ d !! k = Some r0 /\ reconcile r0 = r
}.

Definition InvA (st : State) : Prop :=
  InvAC (tasks st) (activeProcesses st) (children st) (timers st) (tasksFile st).

(** In a list of effects every SIGKILL comes after a SIGTERM to the same
    task. *)
Definition graceful (es : list Effect) : Prop :=
  forall i k, es !! i = Some (Kill k "SIGKILL") ->
  exists j, (j < i)%nat /\ es !! j = Some (Kill k "SIGTERM").

(** The invariant on signals, on the timers and the effects: a forced kill
    is armed only after a SIGTERM, and the effects are graceful. *)
Record InvKC (ts : list Timer) (es : list Effect) : Prop := {
  k_armed : forall t, t ∈ ts ->
    t_kind t = KillAfterTimeout \/ t_kind t = KillAfterCancel ->
    Kill (t_task t) "SIGTERM" ∈ es;
  k_graceful : graceful es
}.

Definition InvK (st : State) : Prop := InvKC (timers st) (effects st).

(** The effects one event adds. *)
Definition new_effects (CODEX_PATH homedir : string) (ev : Event) (st : State)
    : list Effect :=
  drop (length (effects st)) (effects (handle CODEX_PATH homedir ev st)).

(** ** The reason of a timeout and the events that change a status *)



(** ** The tasks file around a save *)





(** ** Listing tasks: [handleCodexTasks] *)

(** The arguments of the [codex_tasks] tool. *)
Record TasksArgs := { arg_status : option string; arg_limit : option Z }.

(** [v || d] on a number-or-absent value: [0] is falsy. *)
Definition num_or (v : option Z) (d : Z) : Z :=
  match v with
  | Some n => if n =? 0 then d else n
  | None => d
  end.

(** The line feed character. *)
Definition nl : string := String (ascii_of_nat 10) EmptyString.

(** [filtered.sort((a, b) => new Date(b.startedAt) - new Date(a.startedAt))]:
    the sort of an array is stable, so the result is the one stable
    arrangement by start time, latest first; it is computed here by
    insertion from the right. *)
Fixpoint insert_by_start (x : TaskRecord) (l : list TaskRecord) : list TaskRecord :=
  match l with
  | [] => [x]
  | y :: l' =>
      if startedAt y <=? startedAt x then x :: l else y :: insert_by_start x l'
  end.

Definition sort_by_start (l : list TaskRecord) : list TaskRecord :=
  foldr insert_by_start [] l.

(** [l.slice(0, limit)]: a negative [limit] counts from the end. *)
Definition slice0 {A} (limit : Z) (l : list A) : list A :=
  if limit <? 0 then take (length l - Z.to_nat (- limit)) l
  else take (Z.to_nat limit) l.

(** The records [handleCodexTasks] lists; [values] is
    [Array.from(tasks.values())]. *)
Definition matching (statusFilter : string) (values : list TaskRecord)
    : list TaskRecord :=
  if String.eqb statusFilter "all" then values
  else filter (fun t => status t = statusFilter) values.

Definition selectTasks (values : list TaskRecord) (args : TasksArgs)
    : list TaskRecord :=
  let statusFilter := or_default (arg_status args) "all" in
  let limit := num_or (arg_limit args) 20 in
  slice0 limit (sort_by_start (matching statusFilter values)).

(** One row of the table; a record of this server always has the property
    [exitCode], [null] until the child exits. *)
Definition taskRow (now : Z) (t : TaskRecord) : string :=
  let shortTask :=
    if (30 <? String.length (task t))%nat
    then String.substring 0 30 (task t) +:+ "..." else task t in
  let duration :=
    if truthy (durationFormatted t) then default "" (durationFormatted t)
    else if is_running t then formatDuration (now - startedAt t) else "-" in
  let exit :=
    if truthy (exitSignal t) then default "" (exitSignal t)
    else match exitCode t with Some c => pretty c | None => "-" end in
  "| " +:+ id t +:+ " | " +:+ status t +:+ " | " +:+ duration +:+ " | " +:+
  exit +:+ " | " +:+ shortTask +:+ " |" +:+ nl.

Definition handleCodexTasks (values : list TaskRecord) (args : TasksArgs)
    (now : Z) : ToolResult :=
  let statusFilter := or_default (arg_status args) "all" in
  match selectTasks values args with
  | [] => {| text := "No tasks found."; isError := false |}
  | filtered =>
      {| text :=
           "## Codex Tasks (" +:+ statusFilter +:+ ")" +:+ nl +:+ nl +:+
           "| ID | Status | Duration | Exit | Task |" +:+ nl +:+
           "|----|--------|----------|------|------|" +:+ nl +:+
           String.concat "" (map (taskRow now) filtered);
         isError := false |}
  end.

(** The order of the listing: a task is listed before the tasks that
    started no later. *)
Definition later_first (a b : TaskRecord) : Prop := startedAt b <= startedAt a.

(** ** Waiting for a task: [handleCodexWait] *)

(** The arguments of the [codex_wait] tool. *)
Record WaitArgs := {
  w_taskId : string;
  w_pollIntervalMs : option Z;
  w_timeoutMs : option Z
}.

(** [formatWaitResult] *)
Definition formatWaitResult (taskId : string) (taskRecord : TaskRecord) : string :=
  let shown :=
    if String.eqb (status taskRecord) "completed"
    then "completed successfully" else status taskRecord in
  "## Codex Task Completed" +:+ nl +:+ nl +:+
  "**Task ID:** " +:+ taskId +:+ nl +:+
  "**Status:** " +:+ shown +:+ nl +:+
  "**Duration:** " +:+ or_default (durationFormatted taskRecord) "unknown" +:+ nl +:+
  match exitCode taskRecord with
  | Some c => "**Exit code:** " +:+ pretty c +:+ nl
  | None => ""
  end +:+
  (if truthy (exitSignal taskRecord)
   then "**Exit signal:** " +:+ default "" (exitSignal taskRecord) +:+ nl else "") +:+
  (if truthy (failureReason taskRecord)
   then "**Failure reason:** " +:+ default "" (failureReason taskRecord) +:+ nl
   else "") +:+
  nl +:+ "### Summary" +:+ nl +:+
  "- Stdout: " +:+ pretty (num_or (Some (stdoutBytes taskRecord)) 0) +:+ " bytes" +:+ nl +:+
  "- Stderr: " +:+ pretty (num_or (Some (stderrBytes taskRecord)) 0) +:+ " bytes" +:+ nl +:+
  "- Heartbeats: " +:+ pretty (num_or (Some (heartbeatCount taskRecord)) 0) +:+ nl +:+
  (if truthy (result taskRecord)
   then nl +:+ "### Result" +:+ nl +:+ default "" (result taskRecord) +:+ nl else "").

(** How a wait ends: the identifier is unknown; the task is found not
    running; the wait has lasted longer than its own timeout; the polls
    observed so far all found the task running; or the record has vanished
    from the map, which makes the poll throw. *)
Inductive WaitOutcome :=
| WaitNotFound
| WaitFinished (record : TaskRecord)
| WaitTimedOut (waited : Z)
| WaitPending
| WaitThrows.

(** One call of [checkStatus], at the time [now], for a wait that began at
    [startWait]: [None] when the poll goes on. *)
Definition checkStatus (taskId : string) (timeoutMs startWait now : Z)
    (st : State) : option WaitOutcome :=
  match tasks st !! taskId with
  | Some record =>
      if negb (is_running record) then Some (WaitFinished record)
      else if (0 <? timeoutMs) && (timeoutMs <? now - startWait)
      then Some (WaitTimedOut (now - startWait))
      else None
  | None => Some WaitThrows
  end.

(** The polls of a wait: [polls] lists the state of the server and the time
    at each call of [checkStatus], the first one made at once and the next
    ones [pollIntervalMs] apart.  The number counts the waiting
    notifications sent, one for every poll that goes on. *)
Fixpoint pollLoop (taskId : string) (timeoutMs startWait : Z)
    (polls : list (State * Z)) : WaitOutcome * nat :=
  match polls with
  | [] => (WaitPending, 0%nat)
  | (st, now) :: polls' =>
      match checkStatus taskId timeoutMs startWait now st with
      | Some outcome => (outcome, 0%nat)
      | None =>
          let '(outcome, sent) := pollLoop taskId timeoutMs startWait polls' in
          (outcome, S sent)
      end
  end.

(** [handleCodexWait]: [st] is the state at the request, [startWait] its
    time. *)
Definition handleCodexWait (args : WaitArgs) (st : State) (startWait : Z)
    (polls : list (State * Z)) : WaitOutcome * nat :=
  let timeoutMs := num_or (w_timeoutMs args) 0 in
  match tasks st !! w_taskId args with
  | None => (WaitNotFound, 0%nat)
  | Some taskRecord =>
      if negb (is_running taskRecord) then (WaitFinished taskRecord, 0%nat)
      else pollLoop (w_taskId args) timeoutMs startWait polls
  end.

(** The answer the caller gets; a pending wait and a poll that throws give
    none. *)
Definition waitAnswer (args : WaitArgs) (outcome : WaitOutcome)
    : option ToolResult :=
  let taskId := w_taskId args in
  match outcome with
  | WaitNotFound =>
      Some {| text := "Task not found: " +:+ taskId; isError := true |}
  | WaitFinished record =>
      Some {| text := formatWaitResult taskId record; isError := false |}
  | WaitTimedOut waited =>
      Some {| text :=
                "## Codex Wait Timeout" +:+ nl +:+ nl +:+
                "**Task ID:** " +:+ taskId +:+ nl +:+
                "**Status:** still running" +:+ nl +:+
                "**Waited:** " +:+ formatDuration waited +:+ nl +:+
                "**Timeout:** " +:+ formatDuration (num_or (w_timeoutMs args) 0) +:+
                nl +:+ nl +:+
                "Task is still running. Use `codex_status` to check progress or " +:+
                "`codex_cancel` to stop it.";
              isError := false |}
  | WaitPending => None
  | WaitThrows => None
  end.

(** * Properties *)

(** ** Basic facts about the state updates *)

Lemma truthy_Some_nonempty (s : string) : s <> "" -> truthy (Some s) = true.
Proof.
  intros Hs. unfold truthy. destruct (String.eqb_spec s ""); [contradiction | reflexivity].
Qed.

Lemma is_running_true (r : TaskRecord) : is_running r = true <-> status r = "running".
Proof. unfold is_running. apply String.eqb_eq. Qed.

Lemma is_running_false (r : TaskRecord) : is_running r = false <-> status r <> "running".
Proof. unfold is_running. apply String.eqb_neq. Qed.

Lemma reconcile_not_running (t : TaskRecord) : status (reconcile t) <> "running".
Proof.
  unfold reconcile. destruct (is_running t) eqn:E.
  - simpl. discriminate.
  - by apply is_running_false.
Qed.

Lemma reconcile_heartbeatCount (t : TaskRecord) :
  heartbeatCount (reconcile t) = heartbeatCount t.
Proof. unfold reconcile. by destruct (is_running t). Qed.

(** The loop of [initDirs] over entries with distinct keys, as the entries
    of an object are: every entry ends up in the map, reconciled. *)
Lemma initDirs_lookup (savedTasks : list (string * TaskRecord))
    (m : gmap string TaskRecord) (k : string) :
  NoDup savedTasks.*1 ->
  initDirs (Some savedTasks) m !! k =
    match list_to_map (M := gmap string TaskRecord) savedTasks !! k with
    | Some t => Some (reconcile t)
    | None => m !! k
    end.
Proof.
  unfold initDirs. revert m.
  induction savedTasks as [|[k' t] l IH]; intros m Hnd.
  - done.
  - rewrite fmap_cons in Hnd. apply NoDup_cons in Hnd as [Hk' Hnd].
    cbn [foldl fst snd] in *. rewrite IH by done.
    rewrite list_to_map_cons. cbn [fst snd].
    destruct (decide (k' = k)) as [->|Hne].
    + rewrite !lookup_insert_eq.
      by rewrite (not_elem_of_list_to_map_1 _ _ Hk').
    + by rewrite !(lookup_insert_ne _ k' k).
Qed.

(** After a restart the map holds the records of the tasks file, each one
    reconciled. *)
Lemma restart_lookup (st : State) (d : gmap string TaskRecord) (k : string) :
  tasksFile st = Some d ->
  tasks (restart st) !! k = reconcile <$> (d !! k).
Proof.
  intros Hd. unfold restart. cbn [tasks]. rewrite Hd. cbn [fmap option_fmap option_map].
  rewrite initDirs_lookup by apply NoDup_fst_map_to_list.
  rewrite list_to_map_to_list, lookup_empty. by destruct (d !! k).
Qed.

Lemma restart_no_file (st : State) : tasksFile st = None -> tasks (restart st) = ∅.
Proof. intros Hd. unfold restart. simpl. by rewrite Hd. Qed.

(** What the close handler leaves in the task map. *)
Lemma closeHandler_tasks (st : State) (taskId : string) (r : TaskRecord)
    code signal resultText now :
  tasks st !! taskId = Some r ->
  tasks (closeHandler taskId code signal resultText now st) =
    <[taskId := closeRecord code signal resultText now r]> (tasks st).
Proof. intros H. unfold closeHandler. cbn. by rewrite H. Qed.

Lemma closeHandler_lookup (st : State) (taskId : string) (r : TaskRecord)
    code signal resultText now :
  tasks st !! taskId = Some r ->
  tasks (closeHandler taskId code signal resultText now st) !! taskId =
    Some (closeRecord code signal resultText now r).
Proof.
  intros H. rewrite (closeHandler_tasks _ _ r) by done. apply lookup_insert_eq.
Qed.

Lemma closeRecord_keeps_reason (r : TaskRecord) (reason : string)
    code signal resultText now :
  failureReason r = Some reason -> reason <> "" ->
  failureReason (closeRecord code signal resultText now r) = Some reason.
Proof.
  intros Hr Hne. cbn. unfold closeReason.
  rewrite Hr, (truthy_Some_nonempty reason Hne). by rewrite (truthy_Some_nonempty reason Hne).
Qed.

Lemma timeoutReason_nonempty (elapsed limit : Z) : timeoutReason elapsed limit <> "".
Proof. unfold timeoutReason. discriminate. Qed.

(** What a cancel request does to a running task with a live handle. *)
Lemma handleCodexCancel_running (st : State) (taskId : string)
    (r : TaskRecord) (codex : ChildProcess) :
  tasks st !! taskId = Some r -> status r = "running" ->
  activeProcesses st !! taskId = Some codex ->
  snd (handleCodexCancel taskId None st) =
    arm {| t_kind := KillAfterCancel; t_task := taskId; t_delay := 5000 |}
      (emit [AppendLog taskId LogCancelled; SendProgress taskId PCancelling;
             Kill taskId "SIGTERM"]
         (with_tasks
            (<[taskId := set_failureReason (Some "Cancelled by user") r]> (tasks st)) st)).
Proof.
  intros Ht Hs Ha. unfold handleCodexCancel. rewrite Ht.
  apply is_running_true in Hs. rewrite Hs. cbn [negb]. by rewrite Ha.
Qed.

(** The close handler leaves the reason "Cancelled by user" on a record
    only if it found it there. *)
Lemma closeRecord_reason_cancelled (r : TaskRecord) code signal resultText now :
  failureReason (closeRecord code signal resultText now r) = Some "Cancelled by user" ->
  failureReason r = Some "Cancelled by user".
Proof.
  cbn. unfold closeReason.
  repeat match goal with
         | |- context [if ?b then _ else _] => destruct b eqn:?
         end;
    intros H; try done; injection H as H; discriminate H.
Qed.

(** A child that has not emitted [close] belongs to a record, after every
    event and so along every run. *)
Lemma handle_child_has_record CODEX_PATH homedir (k : string) (ev : Event)
    (st : State) :
  (k ∈ children st -> is_Some (tasks st !! k)) ->
  k ∈ children (handle CODEX_PATH homedir ev st) ->
  is_Some (tasks (handle CODEX_PATH homedir ev st) !! k).
Proof.
  intros H. destruct ev; cbn [handle].
  - unfold handleCodexAgent.
    destruct (0 <? default 0 (arg_timeoutMs args)); cbn; intros Hc;
      (destruct (decide (taskId = k)) as [->|Hne];
       [rewrite lookup_insert_eq; eauto
       |rewrite !lookup_insert_ne by done; apply H; set_solver]).
  - unfold onData. destruct (tasks st !! taskId) eqn:E; cbn; [|done].
    intros Hc. apply lookup_insert_is_Some'. auto.
  - unfold heartbeatTick. destruct (tasks st !! taskId) eqn:E; [|done].
    destruct (negb (is_running t)); cbn; [done|].
    intros Hc. apply lookup_insert_is_Some'. auto.
  - unfold timeoutCallback. cbn. destruct (tasks st !! taskId) eqn:E; cbn; [|done].
    intros Hc. apply lookup_insert_is_Some'. auto.
  - unfold killAfterTimeout. cbn. destruct (tasks st !! taskId) eqn:E; [|done].
    destruct (is_running t); done.
  - unfold killAfterCancel. cbn. destruct (tasks st !! taskId) eqn:E; [|done].
    destruct (is_running t); done.
  - unfold closeHandler. cbn. destruct (tasks st !! taskId) eqn:E; cbn.
    + destruct resultText; cbn; intros Hc; apply lookup_insert_is_Some';
        right; apply H; set_solver.
    + intros Hc. apply H. set_solver.
  - unfold errorHandler. cbn. destruct (tasks st !! taskId) eqn:E; cbn; [|done].
    intros Hc. apply lookup_insert_is_Some'. auto.
  - unfold handleCodexCancel. destruct (tasks st !! taskId) eqn:E; [|done].
    destruct (negb (is_running t)); [done|].
    destruct (activeProcesses st !! taskId); [|done].
    destruct appendError; cbn; intros Hc; apply lookup_insert_is_Some'; auto.
  - cbn. set_solver.
Qed.

Lemma run_child_has_record CODEX_PATH homedir (k : string) (evs : list Event)
    (st st' : State) :
  (k ∈ children st -> is_Some (tasks st !! k)) ->
  run CODEX_PATH homedir evs st = Some st' ->
  k ∈ children st' -> is_Some (tasks st' !! k).
Proof.
  revert st. induction evs as [|ev evs IH]; intros st H Hrun; cbn in Hrun.
  - by simplify_eq.
  - destruct (enabled ev st); [|done].
    apply (IH (handle CODEX_PATH homedir ev st)); [|done].
    by apply handle_child_has_record.
Qed.

(** The close event of a child that has not closed yet finds the record of
    its task and writes the status the exit code gives. *)
Lemma close_sets_status_by_code CODEX_PATH homedir (taskId : string) (st : State)
    code signal resultText now :
  (taskId ∈ children st -> is_Some (tasks st !! taskId)) ->
  enabled (EvClose taskId code signal resultText now) st = true ->
  exists r3,
    tasks (handle CODEX_PATH homedir
             (EvClose taskId code signal resultText now) st) !! taskId = Some r3 /\
    status r3 = (if is_zero code then "completed" else "failed") /\
    status r3 <> "cancelled".
Proof.
  intros H Hen. cbn in Hen. apply bool_decide_eq_true in Hen.
  destruct (H Hen) as [r2 Hl]. cbn [handle].
  eexists. split; [by apply closeHandler_lookup|].
  split; [reflexivity|]. cbn. destruct (is_zero code); discriminate.
Qed.

(** ** Cancellation and the natural exit *)

(** C1, as stated, fails: a running task is cancelled and its child then
    dies of the SIGTERM; the close handler records the status failed, and no
    path of the server assigns the status cancelled. *)
Lemma C1_cancelled_task_ends_failed :
  let st1 := snd (handleCodexCancel "ab12cd34" None sample_started) in
  let st2 := closeHandler "ab12cd34" None (Some "SIGTERM") None 1700000000800 st1 in
  status <$> (tasks sample_started !! "ab12cd34") = Some "running" /\
  failureReason <$> (tasks st1 !! "ab12cd34") = Some (Some "Cancelled by user") /\
  status <$> (tasks st2 !! "ab12cd34") = Some "failed" /\
  status <$> (tasks st2 !! "ab12cd34") <> Some "cancelled".
Proof. vm_compute. repeat split; discriminate. Qed.

(** C1, amended: a cancel request for a running task with a live handle
    whose log append succeeds records the reason "Cancelled by user", sends
    SIGTERM and arms a forced kill after 5000 ms, which sends SIGKILL if the
    task is still running; when the child exits after that, whatever
    happened in between, the close handler takes the status from the exit
    code alone, completed for code 0 and failed otherwise, never
    cancelled. *)
Theorem C1_cancel_then_exit (CODEX_PATH homedir : string) (st : State)
    (taskId : string) (r : TaskRecord) (codex : ChildProcess) :
  tasks st !! taskId = Some r -> status r = "running" ->
  activeProcesses st !! taskId = Some codex ->
  let st1 := snd (handleCodexCancel taskId None st) in
  tasks st1 !! taskId = Some (set_failureReason (Some "Cancelled by user") r) /\
  effects st1 =
    effects st ++ [AppendLog taskId LogCancelled; SendProgress taskId PCancelling;
                   Kill taskId "SIGTERM"] /\
  timers st1 =
    timers st ++ [{| t_kind := KillAfterCancel; t_task := taskId; t_delay := 5000 |}] /\
  (forall s r2, tasks s !! taskId = Some r2 ->
     effects (killAfterCancel taskId s) =
       effects s ++ (if is_running r2
                     then [Kill taskId "SIGKILL"; AppendLog taskId LogSigkill]
                     else [])) /\
  forall evs st2 code signal resultText now,
    run CODEX_PATH homedir evs st1 = Some st2 ->
    enabled (EvClose taskId code signal resultText now) st2 = true ->
    exists r3,
      tasks (handle CODEX_PATH homedir
               (EvClose taskId code signal resultText now) st2) !! taskId = Some r3 /\
      status r3 = (if is_zero code then "completed" else "failed") /\
      status r3 <> "cancelled".
Proof.
  intros Ht Hs Ha st1.
  assert (Hl : tasks st1 !! taskId = Some (set_failureReason (Some "Cancelled by user") r)).
  { subst st1. rewrite (handleCodexCancel_running st taskId r codex) by done.
    cbn. apply lookup_insert_eq. }
  split; [exact Hl|].
  assert (Hc1 : taskId ∈ children st1 -> is_Some (tasks st1 !! taskId)) by eauto.
  split; [|split; [|split]].
  - subst st1. by rewrite (handleCodexCancel_running st taskId r codex).
  - subst st1. by rewrite (handleCodexCancel_running st taskId r codex).
  - intros s r2 Hl2. unfold killAfterCancel. rewrite Hl2.
    destruct (is_running r2); [done | by rewrite app_nil_r].
  - intros evs st2 code signal resultText now Hrun Hen.
    apply (close_sets_status_by_code CODEX_PATH homedir taskId st2).
    + eapply run_child_has_record; eauto.
    + exact Hen.
Qed.

Lemma C1_cancel_then_exit_witness :
  let st1 := snd (handleCodexCancel "ab12cd34" None sample_started) in
  let st2 := handle "/usr/bin/codex" "/home/dev"
               (EvTimeout "ab12cd34" 1700000001001) st1 in
  exists r3,
    tasks (handle "/usr/bin/codex" "/home/dev"
             (EvClose "ab12cd34" (Some 143) None None 1700000001800) st2)
      !! "ab12cd34" = Some r3 /\
    status r3 = "failed" /\ status r3 <> "cancelled".
Proof.
  destruct (C1_cancel_then_exit "/usr/bin/codex" "/home/dev" sample_started
              "ab12cd34" sample_record {| child_pid := Some 4242 |})
    as (_ & _ & _ & _ & H).
  - vm_compute. reflexivity.
  - reflexivity.
  - vm_compute. reflexivity.
  - exact (H [EvTimeout "ab12cd34" 1700000001001] _ (Some 143) None None
             1700000001800 eq_refl eq_refl).
Defined.

(** C3, as stated, fails: a cancelled task whose child still exits with
    code 0 and no signal ends up completed, with the cancellation reason
    kept on the final record. *)
Lemma C3_exit_zero_keeps_earlier_reason :
  let st1 := snd (handleCodexCancel "ab12cd34" None sample_started) in
  let st2 := closeHandler "ab12cd34" (Some 0) None None 1700000000800 st1 in
  status <$> (tasks st2 !! "ab12cd34") = Some "completed" /\
  failureReason <$> (tasks st2 !! "ab12cd34") = Some (Some "Cancelled by user") /\
  failureReason <$> (tasks st2 !! "ab12cd34") <> Some None.
Proof. vm_compute. repeat split; discriminate. Qed.

(** C3, amended: when the child exits with code 0 and no signal the final
    status is completed and the close handler leaves failureReason as it
    was: absent when nothing set it before the exit, and the earlier
    timeout or cancellation reason otherwise. *)
Theorem C3_exit_zero_completed (st : State) (taskId : string) (r : TaskRecord)
    (resultText : option string) (now : Z) :
  tasks st !! taskId = Some r ->
  exists r',
    tasks (closeHandler taskId (Some 0) None resultText now st) !! taskId = Some r' /\
    status r' = "completed" /\
    failureReason r' = failureReason r /\
    (failureReason r = None -> failureReason r' = None).
Proof.
  intros Ht. eexists. split; [by apply closeHandler_lookup|].
  split; [reflexivity|].
  assert (H : failureReason (closeRecord (Some 0) None resultText now r) = failureReason r).
  { cbn. unfold closeReason. cbn. by destruct (truthy (failureReason r)) eqn:E; rewrite ?E. }
  split; [exact H|]. intros Hn. by rewrite H.
Qed.

Lemma C3_exit_zero_completed_witness :
  exists r',
    tasks (closeHandler "ab12cd34" (Some 0) None (Some "done") 1700000000800
             sample_started) !! "ab12cd34" = Some r' /\
    status r' = "completed" /\ failureReason r' = None.
Proof.
  destruct (C3_exit_zero_completed sample_started "ab12cd34" sample_record
              (Some "done") 1700000000800) as (r' & H1 & H2 & _ & H4).
  - vm_compute. reflexivity.
  - exists r'. split; [exact H1|]. split; [exact H2|]. apply H4. reflexivity.
Defined.

(** C5: a failureReason set by the timeout callback or by a cancel request
    before the child closes is the one the close handler leaves on the
    record, whatever the exit code and the signal are. *)
Theorem C5_close_keeps_earlier_reason (st : State) (taskId : string)
    (r : TaskRecord) (reason : string) (code : option Z)
    (signal resultText : option string) (now : Z) :
  tasks st !! taskId = Some r ->
  failureReason r = Some reason ->
  (reason = "Cancelled by user" \/
   exists elapsed limit, reason = timeoutReason elapsed limit) ->
  exists r',
    tasks (closeHandler taskId code signal resultText now st) !! taskId = Some r' /\
    failureReason r' = Some reason /\
    closeReason (failureReason r) code signal = Some reason.
Proof.
  intros Ht Hr Hwho.
  assert (Hne : reason <> "").
  { destruct Hwho as [->|(e & l & ->)]; [discriminate | apply timeoutReason_nonempty]. }
  eexists. split; [by apply closeHandler_lookup|].
  split; [by apply closeRecord_keeps_reason|].
  unfold closeReason. by rewrite Hr, (truthy_Some_nonempty reason Hne).
Qed.

Lemma C5_close_keeps_earlier_reason_witness :
  exists r',
    tasks (closeHandler "ab12cd34" None (Some "SIGKILL") None 1700000006200
             (timeoutCallback "ab12cd34" 1700000001001 sample_started))
      !! "ab12cd34" = Some r' /\
    failureReason r' = Some "Timeout after 1.0s (limit: 1.0s)".
Proof.
  destruct (C5_close_keeps_earlier_reason
              (timeoutCallback "ab12cd34" 1700000001001 sample_started)
              "ab12cd34"
              (set_failureReason (Some (timeoutReason 1001 1000)) sample_record)
              (timeoutReason 1001 1000) None (Some "SIGKILL") None 1700000006200)
    as (r' & H1 & H2 & _).
  - vm_compute. reflexivity.
  - reflexivity.
  - right. exists 1001, 1000. reflexivity.
  - exists r'. split; [exact H1|]. rewrite H2. vm_compute. reflexivity.
Defined.

(** ** Cancel requests *)

(** C10: for a record that is running while no handle is registered for
    it, the cancel request answers with an error and changes nothing: the
    task map, the handles, the timers and the effects are those of before,
    so failureReason is untouched and no signal is sent. *)
Theorem C10_cancel_without_handle (st : State) (taskId : string)
    (r : TaskRecord) (appendError : option string) :
  tasks st !! taskId = Some r -> status r = "running" ->
  activeProcesses st !! taskId = None ->
  isError (fst (handleCodexCancel taskId appendError st)) = true /\
  text (fst (handleCodexCancel taskId appendError st)) =
    "Task " +:+ taskId +:+ " has no active process handle" /\
  snd (handleCodexCancel taskId appendError st) = st /\
  tasks (snd (handleCodexCancel taskId appendError st)) !! taskId = Some r.
Proof.
  intros Ht Hs Ha. unfold handleCodexCancel. rewrite Ht.
  apply is_running_true in Hs. rewrite Hs, Ha. cbn. by rewrite Ht.
Qed.

Lemma C10_cancel_without_handle_witness :
  isError (fst (handleCodexCancel "ab12cd34" None sample_no_handle)) = true /\
  snd (handleCodexCancel "ab12cd34" None sample_no_handle) = sample_no_handle.
Proof.
  destruct (C10_cancel_without_handle sample_no_handle "ab12cd34" sample_record None)
    as (H1 & _ & H3 & _).
  - vm_compute. reflexivity.
  - reflexivity.
  - vm_compute. reflexivity.
  - split; [exact H1 | exact H3].
Defined.

(** C6, as stated, fails: while the task is still running and its handle is
    registered, a second cancel request sends SIGTERM again and arms a
    second forced kill. *)
Lemma C6_second_cancel_signals_again :
  let st1 := snd (handleCodexCancel "ab12cd34" None sample_started) in
  let st2 := snd (handleCodexCancel "ab12cd34" None st1) in
  status <$> (tasks st1 !! "ab12cd34") = Some "running" /\
  effects st2 =
    effects st1 ++ [AppendLog "ab12cd34" LogCancelled;
                    SendProgress "ab12cd34" PCancelling;
                    Kill "ab12cd34" "SIGTERM"] /\
  timers st2 =
    timers st1 ++
      [{| t_kind := KillAfterCancel; t_task := "ab12cd34"; t_delay := 5000 |}] /\
  effects st2 <> effects st1.
Proof. vm_compute. repeat split; discriminate. Qed.

(** C6, amended: a further cancel request, on a task that is still running
    with its handle registered at any time after a first cancel request,
    writes the reason "Cancelled by user" again and changes nothing else
    of the task map: the task map, and with it the final record after the
    child exits, is the one of a single request exactly when the record
    still carries that reason, as it does when the two requests follow each
    other, and not when the timeout callback has written its reason in
    between.  In either case the further request repeats the signalling:
    it sends SIGTERM again and arms another forced kill after 5000 ms. *)
Theorem C6_cancel_twice (CODEX_PATH homedir : string) (st : State)
    (taskId : string) (r : TaskRecord) (codex : ChildProcess) :
  tasks st !! taskId = Some r -> status r = "running" ->
  activeProcesses st !! taskId = Some codex ->
  let st1 := snd (handleCodexCancel taskId None st) in
  (let st2 := snd (handleCodexCancel taskId None st1) in
   tasks st2 = tasks st1 /\
   forall code signal resultText now,
     tasks (closeHandler taskId code signal resultText now st2) =
     tasks (closeHandler taskId code signal resultText now st1)) /\
  forall evs st2 r2 codex2,
    run CODEX_PATH homedir evs st1 = Some st2 ->
    tasks st2 !! taskId = Some r2 -> status r2 = "running" ->
    activeProcesses st2 !! taskId = Some codex2 ->
    let st3 := snd (handleCodexCancel taskId None st2) in
    tasks st3 = <[taskId := set_failureReason (Some "Cancelled by user") r2]> (tasks st2) /\
    (failureReason r2 = Some "Cancelled by user" <-> tasks st3 = tasks st2) /\
    (failureReason r2 = Some "Cancelled by user" ->
     forall code signal resultText now,
       tasks (closeHandler taskId code signal resultText now st3) =
       tasks (closeHandler taskId code signal resultText now st2)) /\
    (failureReason r2 <> Some "Cancelled by user" ->
     forall code signal resultText now,
       failureReason <$>
         (tasks (closeHandler taskId code signal resultText now st3) !! taskId) =
         Some (Some "Cancelled by user") /\
       failureReason <$>
         (tasks (closeHandler taskId code signal resultText now st2) !! taskId) <>
         Some (Some "Cancelled by user")) /\
    effects st3 =
      effects st2 ++ [AppendLog taskId LogCancelled; SendProgress taskId PCancelling;
                      Kill taskId "SIGTERM"] /\
    timers st3 =
      timers st2 ++ [{| t_kind := KillAfterCancel; t_task := taskId; t_delay := 5000 |}].
Proof.
  intros Ht Hs Ha st1.
  assert (Hagain : forall s r2 codex2,
    tasks s !! taskId = Some r2 -> status r2 = "running" ->
    activeProcesses s !! taskId = Some codex2 ->
    let s' := snd (handleCodexCancel taskId None s) in
    tasks s' = <[taskId := set_failureReason (Some "Cancelled by user") r2]> (tasks s) /\
    (failureReason r2 = Some "Cancelled by user" <-> tasks s' = tasks s) /\
    effects s' =
      effects s ++ [AppendLog taskId LogCancelled; SendProgress taskId PCancelling;
                    Kill taskId "SIGTERM"] /\
    timers s' =
      timers s ++ [{| t_kind := KillAfterCancel; t_task := taskId; t_delay := 5000 |}]).
  { intros s r2 codex2 Hl2 Hs2 Ha2 s'. subst s'.
    rewrite (handleCodexCancel_running s taskId r2 codex2) by done. cbn.
    split; [reflexivity|]. split; [|done]. split.
    - intros Hr. apply insert_id. rewrite Hl2. f_equal.
      destruct r2; cbn in *. by rewrite Hr.
    - intros Heq.
      assert (Hl3 : <[taskId := set_failureReason (Some "Cancelled by user") r2]>
                      (tasks s) !! taskId = Some r2) by (by rewrite Heq).
      rewrite lookup_insert_eq in Hl3. injection Hl3 as Hr.
      by rewrite <- Hr. }
  assert (Hl1 : tasks st1 !! taskId = Some (set_failureReason (Some "Cancelled by user") r)).
  { subst st1. rewrite (handleCodexCancel_running st taskId r codex) by done.
    cbn. apply lookup_insert_eq. }
  assert (Ha1 : activeProcesses st1 !! taskId = Some codex).
  { subst st1. by rewrite (handleCodexCancel_running st taskId r codex). }
  split.
  - destruct (Hagain st1 _ codex Hl1 Hs Ha1) as (_ & Hiff & _).
    assert (Heq : tasks (snd (handleCodexCancel taskId None st1)) = tasks st1)
      by (by apply Hiff).
    split; [exact Heq|].
    intros code signal resultText now.
    rewrite (closeHandler_tasks (snd (handleCodexCancel taskId None st1)) taskId
               (set_failureReason (Some "Cancelled by user") r)),
            (closeHandler_tasks st1 taskId
               (set_failureReason (Some "Cancelled by user") r));
      rewrite ?Heq; done.
  - intros evs st2 r2 codex2 _ Hl2 Hs2 Ha2 st3.
    destruct (Hagain st2 r2 codex2 Hl2 Hs2 Ha2) as (Htasks & Hiff & Heff & Htim).
    fold st3 in Htasks, Hiff, Heff, Htim.
    split; [exact Htasks|]. split; [exact Hiff|].
    split; [|split; [|split; [exact Heff | exact Htim]]].
    + intros Hr code signal resultText now.
      assert (Heq : tasks st3 = tasks st2) by (by apply Hiff).
      rewrite (closeHandler_tasks st3 taskId r2), (closeHandler_tasks st2 taskId r2);
        rewrite ?Heq; done.
    + intros Hr code signal resultText now.
      assert (Hl3 : tasks st3 !! taskId =
                    Some (set_failureReason (Some "Cancelled by user") r2))
        by (rewrite Htasks; apply lookup_insert_eq).
      rewrite (closeHandler_lookup st3 taskId _ _ _ _ _ Hl3),
              (closeHandler_lookup st2 taskId _ _ _ _ _ Hl2).
      split.
      * reflexivity.
      * cbn [fmap option_fmap option_map]. intros Hbad. apply Hr.
        injection Hbad as Hbad.
        by apply (closeRecord_reason_cancelled r2 code signal resultText now).
Qed.

Lemma C6_cancel_twice_witness :
  let st1 := snd (handleCodexCancel "ab12cd34" None sample_started) in
  let st2 := handle "/usr/bin/codex" "/home/dev"
               (EvTimeout "ab12cd34" 1700000001001) st1 in
  let st3 := snd (handleCodexCancel "ab12cd34" None st2) in
  tasks (snd (handleCodexCancel "ab12cd34" None st1)) = tasks st1 /\
  failureReason <$> (tasks st2 !! "ab12cd34") =
    Some (Some "Timeout after 1.0s (limit: 1.0s)") /\
  tasks st3 =
    <[ "ab12cd34" := set_failureReason (Some "Cancelled by user")
                       (set_failureReason (Some (timeoutReason 1001 1000))
                          sample_record) ]> (tasks st2) /\
  effects st3 =
    effects st2 ++ [AppendLog "ab12cd34" LogCancelled;
                    SendProgress "ab12cd34" PCancelling;
                    Kill "ab12cd34" "SIGTERM"].
Proof.
  intros st1 st2 st3.
  destruct (C6_cancel_twice "/usr/bin/codex" "/home/dev" sample_started
              "ab12cd34" sample_record {| child_pid := Some 4242 |})
    as ((H1 & _) & H2).
  - vm_compute. reflexivity.
  - reflexivity.
  - vm_compute. reflexivity.
  - destruct (H2 [EvTimeout "ab12cd34" 1700000001001] st2
                (set_failureReason (Some (timeoutReason 1001 1000)) sample_record)
                {| child_pid := Some 4242 |})
      as (H3 & _ & _ & _ & H5 & _).
    + vm_compute. reflexivity.
    + vm_compute. reflexivity.
    + reflexivity.
    + vm_compute. reflexivity.
    + split; [exact H1|]. split; [vm_compute; reflexivity|].
      split; [exact H3 | exact H5].
Defined.

(** ** Start-up reconciliation *)

(** C2, as stated, fails on the text of the reason: the record of a task
    saved as running is loaded with the reason
    "Server restarted while task was running". *)
Lemma C2_reason_text_differs :
  status <$> (tasksFile sample_started ≫= (.!! "ab12cd34")) = Some "running" /\
  status <$> (tasks (restart sample_started) !! "ab12cd34") = Some "interrupted" /\
  failureReason <$> (tasks (restart sample_started) !! "ab12cd34") =
    Some (Some "Server restarted while task was running") /\
  failureReason <$> (tasks (restart sample_started) !! "ab12cd34") <>
    Some (Some "supervisor restarted while task was running").
Proof. vm_compute. repeat split; discriminate. Qed.

(** C2, amended: at load every record of the tasks file whose status is
    running gets the status interrupted and the failureReason
    "Server restarted while task was running", its other fields unchanged;
    every other record is loaded as it is; nothing is spawned or signalled
    and no handle, child or timer is registered. *)
Theorem C2_load_reconciles_running (st : State) (d : gmap string TaskRecord)
    (taskId : string) (t : TaskRecord) :
  tasksFile st = Some d -> d !! taskId = Some t ->
  (status t = "running" ->
   tasks (restart st) !! taskId =
     Some (set_failureReason (Some "Server restarted while task was running")
             (set_status "interrupted" t))) /\
  (status t <> "running" -> tasks (restart st) !! taskId = Some t) /\
  activeProcesses (restart st) = ∅ /\ children (restart st) = ∅ /\
  timers (restart st) = [] /\ effects (restart st) = effects st.
Proof.
  intros Hd Ht. rewrite (restart_lookup st d) by done. rewrite Ht. cbn.
  unfold reconcile. split; [|split].
  - intros Hs. apply is_running_true in Hs. by rewrite Hs.
  - intros Hs. apply is_running_false in Hs. by rewrite Hs.
  - done.
Qed.

Lemma C2_load_reconciles_running_witness :
  exists r,
    tasks (restart sample_started) !! "ab12cd34" = Some r /\
    status r = "interrupted" /\
    failureReason r = Some "Server restarted while task was running".
Proof.
  destruct (C2_load_reconciles_running sample_started (tasks sample_started)
              "ab12cd34" sample_record) as (H & _).
  - reflexivity.
  - vm_compute. reflexivity.
  - eexists. split; [apply H; reflexivity|]. split; reflexivity.
Defined.

(** ** The tasks file around a save *)





(** ** Invariants of the reachable states *)

Lemma map_ok_insert (m : gmap string TaskRecord) (k : string) (r : TaskRecord) :
  map_ok m -> record_ok r -> map_ok (<[k := r]> m).
Proof.
  intros Hm Hr k' r' Hl. destruct (decide (k = k')) as [->|Hne].
  - rewrite lookup_insert_eq in Hl. by simplify_eq.
  - rewrite lookup_insert_ne in Hl by done. eauto.
Qed.

(** Saving makes the tasks file agree with the map. *)
Lemma InvC_save (m : gmap string TaskRecord) (c : gset string) :
  map_ok m ->
  (forall k r, m !! k = Some r -> status r = "running" -> k ∈ c) ->
  InvC m (Some m) c.
Proof.
  intros Hm Hc. split; [done| |done|].
  - intros d [= <-]. done.
  - intros k r Hl _. exists m, r. done.
Qed.

(** An update of one record that keeps its status, its completion time and
    its heartbeat count, without a save. *)
Lemma InvC_update (m : gmap string TaskRecord) (f : option (gmap string TaskRecord))
    (c : gset string) (k : string) (r r' : TaskRecord) :
  InvC m f c -> m !! k = Some r ->
  status r' = status r -> completedAt r' = completedAt r ->
  heartbeatCount r' = heartbeatCount r ->
  InvC (<[k := r']> m) f c.
Proof.
  intros [H1 H2 H3 H4] Hl Hs Hc Hh.
  assert (Hok : record_ok r').
  { specialize (H1 k r Hl). unfold record_ok in *. rewrite Hs, Hc. exact H1. }
  split.
  - by apply map_ok_insert.
  - done.
  - intros k' r0 Hl' Hr. destruct (decide (k = k')) as [->|Hne].
    + rewrite lookup_insert_eq in Hl'. simplify_eq. apply (H3 k' r Hl). congruence.
    + rewrite lookup_insert_ne in Hl' by done. eauto.
  - intros k' r0 Hl' Hr. destruct (decide (k = k')) as [->|Hne].
    + rewrite lookup_insert_eq in Hl'. simplify_eq.
      destruct (H4 k' r Hl) as (d & r0' & ? & ? & ?); [congruence|].
      exists d, r0'. split; [done|]. split; [done|]. congruence.
    + rewrite lookup_insert_ne in Hl' by done. eauto.
Qed.

Lemma Inv_init : Inv init.
Proof.
  split; cbn.
  - intros k r H. by rewrite lookup_empty in H.
  - done.
  - intros k r H. by rewrite lookup_empty in H.
  - intros k r H. by rewrite lookup_empty in H.
Qed.

Lemma Inv_onData (st : State) stream taskId bytes data now :
  Inv st -> Inv (onData stream taskId bytes data now st).
Proof.
  intros HI. unfold onData. destruct (tasks st !! taskId) as [r|] eqn:Hl; [|done].
  unfold Inv. cbn. by eapply InvC_update.
Qed.

Lemma Inv_heartbeatTick (st : State) taskId now :
  Inv st -> Inv (heartbeatTick taskId now st).
Proof.
  intros HI. unfold heartbeatTick.
  destruct (tasks st !! taskId) as [r|] eqn:Hl; [|done].
  destruct (is_running r) eqn:Hr; cbn [negb]; [|exact HI].
  unfold Inv. cbn. destruct HI as [H1 H2 H3 H4].
  apply is_running_true in Hr. apply InvC_save.
  - apply map_ok_insert; [done|]. left. split; [done|].
    destruct (H1 _ _ Hl) as [[_ ?]|[[[?|?] _]|[? _]]]; [done|congruence..].
  - intros k r0 Hl' Hs. destruct (decide (taskId = k)) as [->|Hne].
    + eauto.
    + rewrite lookup_insert_ne in Hl' by done. eauto.
Qed.

Lemma Inv_timeoutCallback (st : State) taskId now :
  Inv st -> Inv (timeoutCallback taskId now st).
Proof.
  intros HI. unfold timeoutCallback.
  destruct (tasks st !! taskId) as [r|] eqn:Hl; [|done].
  unfold Inv. cbn. by eapply InvC_update.
Qed.

Lemma Inv_killAfterTimeout (st : State) taskId :
  Inv st -> Inv (killAfterTimeout taskId st).
Proof.
  intros HI. unfold killAfterTimeout.
  destruct (tasks st !! taskId) as [r|]; [|done]. by destruct (is_running r).
Qed.

Lemma Inv_killAfterCancel (st : State) taskId :
  Inv st -> Inv (killAfterCancel taskId st).
Proof.
  intros HI. unfold killAfterCancel.
  destruct (tasks st !! taskId) as [r|]; [|done]. by destruct (is_running r).
Qed.

Lemma Inv_handleCodexCancel (st : State) taskId appendError :
  Inv st -> Inv (snd (handleCodexCancel taskId appendError st)).
Proof.
  intros HI. unfold handleCodexCancel.
  destruct (tasks st !! taskId) as [r|] eqn:Hl; [|done].
  destruct (is_running r); cbn [negb]; [|done].
  destruct (activeProcesses st !! taskId); [|done].
  destruct appendError; unfold Inv; cbn; by eapply InvC_update.
Qed.

Lemma closeRecord_ok (r : TaskRecord) code signal resultText now :
  record_ok (closeRecord code signal resultText now r).
Proof.
  right. left. cbn. split; [|by eexists].
  destruct (is_zero code); [by left | by right].
Qed.

Lemma closeRecord_not_running (r : TaskRecord) code signal resultText now :
  status (closeRecord code signal resultText now r) <> "running".
Proof. cbn. destruct (is_zero code); discriminate. Qed.

Lemma errorRecord_ok (r : TaskRecord) message errCode now :
  record_ok (errorRecord message errCode now r).
Proof. right. left. cbn. split; [by right | by eexists]. Qed.

Lemma Inv_closeHandler (st : State) taskId code signal resultText now :
  Inv st ->
  Inv (closeHandler taskId code signal resultText now
         (with_children (children st ∖ {[taskId]}) st)).
Proof.
  intros [H1 H2 H3 H4]. unfold closeHandler. cbn.
  destruct (tasks st !! taskId) as [r|] eqn:Hl.
  - unfold Inv. cbn. apply InvC_save.
    + apply map_ok_insert; [done | apply closeRecord_ok].
    + intros k r0 Hl' Hs. destruct (decide (taskId = k)) as [->|Hne].
      * rewrite lookup_insert_eq in Hl'. simplify_eq.
        by apply closeRecord_not_running in Hs.
      * rewrite lookup_insert_ne in Hl' by done.
        apply elem_of_difference. split; [eauto | set_solver].
  - unfold Inv. cbn. split; [done..| |done].
    intros k r0 Hl' Hs. apply elem_of_difference. split; [eauto|].
    intros ->%elem_of_singleton. congruence.
Qed.

Lemma Inv_errorHandler (st : State) taskId message errCode now :
  Inv st -> Inv (errorHandler taskId message errCode now st).
Proof.
  intros [H1 H2 H3 H4]. unfold errorHandler. cbn.
  destruct (tasks st !! taskId) as [r|] eqn:Hl.
  - unfold Inv. cbn. apply InvC_save.
    + apply map_ok_insert; [done | apply errorRecord_ok].
    + intros k r0 Hl' Hs. destruct (decide (taskId = k)) as [->|Hne].
      * rewrite lookup_insert_eq in Hl'. by simplify_eq.
      * rewrite lookup_insert_ne in Hl' by done. eauto.
  - by split.
Qed.

Lemma Inv_handleCodexAgent CODEX_PATH homedir (st : State) taskId args childPid now :
  Inv st ->
  Inv (handleCodexAgent CODEX_PATH homedir taskId args childPid now st).
Proof.
  intros [H1 H2 H3 H4]. unfold handleCodexAgent.
  assert (HI : InvC
    (<[taskId := newTaskRecord CODEX_PATH homedir taskId args childPid now]>
       (<[taskId := newTaskRecord CODEX_PATH homedir taskId args None now]> (tasks st)))
    (Some (<[taskId := newTaskRecord CODEX_PATH homedir taskId args childPid now]>
       (<[taskId := newTaskRecord CODEX_PATH homedir taskId args None now]> (tasks st))))
    ({[taskId]} ∪ children st)).
  { apply InvC_save.
    - apply map_ok_insert; [apply map_ok_insert; [done|] |]; by left.
    - intros k r Hl Hs. destruct (decide (taskId = k)) as [->|Hne]; [set_solver|].
      rewrite !lookup_insert_ne in Hl by done.
      apply elem_of_union. right. eauto. }
  destruct (0 <? default 0 (arg_timeoutMs args)); exact HI.
Qed.

Lemma Inv_restart (st : State) : Inv st -> Inv (restart st).
Proof.
  intros [H1 H2 H3 H4]. unfold Inv.
  change (tasksFile (restart st)) with (tasksFile st).
  change (children (restart st)) with (∅ : gset string).
  destruct (tasksFile st) as [d|] eqn:Hd.
  - assert (Hlook : forall k r, tasks (restart st) !! k = Some r ->
              exists r0, d !! k = Some r0 /\ r = reconcile r0).
    { intros k r. rewrite (restart_lookup st d) by done.
      destruct (d !! k) as [r0|]; [|done]. intros [= <-]. by exists r0. }
    split.
    + intros k r (r0 & Hl & ->)%Hlook.
      specialize (H2 d eq_refl k r0 Hl). unfold reconcile.
      destruct (is_running r0) eqn:Hr; [|done].
      apply is_running_true in Hr. right. right. split; [done|]. cbn.
      destruct H2 as [[_ ?]|[[[?|?] _]|[? _]]]; [done|congruence..].
    + done.
    + intros k r (r0 & Hl & ->)%Hlook Hs. by apply reconcile_not_running in Hs.
    + intros k r (r0 & Hl & ->)%Hlook _. exists d, r0.
      split; [done|]. split; [done|]. by rewrite reconcile_heartbeatCount.
  - rewrite (restart_no_file st Hd).
    split; [intros k r H; by rewrite lookup_empty in H | done | |];
      intros k r H; by rewrite lookup_empty in H.
Qed.

(** Every turn of the loop keeps the invariant. *)
Lemma Inv_step CODEX_PATH homedir (st st' : State) (ev : Event) :
  Inv st -> step CODEX_PATH homedir st ev st' -> Inv st'.
Proof.
  intros HI [_ ->]. destruct ev; cbn [handle].
  - by apply Inv_handleCodexAgent.
  - by apply Inv_onData.
  - by apply Inv_heartbeatTick.
  - by apply Inv_timeoutCallback.
  - by apply Inv_killAfterTimeout.
  - by apply Inv_killAfterCancel.
  - by apply Inv_closeHandler.
  - by apply Inv_errorHandler.
  - by apply Inv_handleCodexCancel.
  - by apply Inv_restart.
Qed.

Lemma reachable_Inv CODEX_PATH homedir (st : State) :
  reachable CODEX_PATH homedir st -> Inv st.
Proof.
  induction 1 as [|st ev st' _ IH Hstep]; [apply Inv_init | by eapply Inv_step].
Qed.

(** A run of events from a reachable state ends in a reachable state. *)
Lemma reachable_run CODEX_PATH homedir (evs : list Event) (st st' : State) :
  reachable CODEX_PATH homedir st -> run CODEX_PATH homedir evs st = Some st' ->
  reachable CODEX_PATH homedir st'.
Proof.
  revert st. induction evs as [|ev evs IH]; intros st Hr Hrun; cbn in Hrun.
  - by simplify_eq.
  - destruct (enabled ev st) eqn:He; [|done].
    apply (IH (handle CODEX_PATH homedir ev st)); [|done].
    by eapply reachable_step.
Qed.

(** ** Completion time and status *)

(** C4, as stated, fails at load: the record of a task that was running when
    the tasks file was last saved is loaded as interrupted, a terminal
    status, with no completedAt. *)
Lemma C4_interrupted_has_no_completedAt :
  reachable "/usr/bin/codex" "/home/dev" (restart sample_started) /\
  exists r,
    tasks (restart sample_started) !! "ab12cd34" = Some r /\
    status r = "interrupted" /\ completedAt r = None /\
    ~ (is_Some (completedAt r) <-> terminal (status r)).
Proof.
  split.
  - apply (reachable_run _ _ [EvStart "ab12cd34" sample_args (Some 4242) 1700000000000;
                              EvRestart] init); [constructor | vm_compute; reflexivity].
  - eexists. split; [vm_compute; reflexivity|].
    split; [reflexivity|]. split; [reflexivity|].
    intros [_ H]. destruct H as [x Hx]; [|discriminate].
    right. right. right. reflexivity.
Qed.

(** C4, amended: in every reachable state completedAt is set exactly on the
    records whose status is completed or failed, the two statuses the close
    and error handlers assign; a record that is running, or that the load
    marked interrupted, has no completedAt; no other status occurs. *)
Theorem C4_completedAt_iff_completed_or_failed (CODEX_PATH homedir : string)
    (st : State) (taskId : string) (r : TaskRecord) :
  reachable CODEX_PATH homedir st -> tasks st !! taskId = Some r ->
  (is_Some (completedAt r) <-> status r = "completed" \/ status r = "failed") /\
  (status r = "running" \/ status r = "interrupted" -> completedAt r = None) /\
  (status r = "running" \/ status r = "completed" \/ status r = "failed" \/
   status r = "interrupted").
Proof.
  intros Hreach Hl. apply reachable_Inv in Hreach as [H1 _ _ _].
  specialize (H1 taskId r Hl).
  destruct H1 as [[Hs Hc]|[[Hs Hc]|[Hs Hc]]].
  - rewrite Hs, Hc. split; [|split]; [|done|by left].
    split; [by intros [? ?] | by intros [?|?]].
  - split; [|split].
    + done.
    + intros [E|E]; rewrite E in Hs; by destruct Hs.
    + destruct Hs; [right; left | right; right; left]; done.
  - rewrite Hs, Hc. split; [|split]; [|done|].
    + split; [by intros [? ?] | by intros [?|?]].
    + by right; right; right.
Qed.

Lemma C4_completedAt_iff_completed_or_failed_witness :
  let st := closeHandler "ab12cd34" (Some 0) None (Some "done") 1700000000800
              (with_children (children sample_started ∖ {["ab12cd34"]}) sample_started) in
  exists r, tasks st !! "ab12cd34" = Some r /\
            (is_Some (completedAt r) <-> status r = "completed" \/ status r = "failed").
Proof.
  intros st. eexists. split; [vm_compute; reflexivity|].
  refine (proj1 (C4_completedAt_iff_completed_or_failed "/usr/bin/codex" "/home/dev"
                   st "ab12cd34" _ _ _)).
  - apply (reachable_run _ _
             [EvStart "ab12cd34" sample_args (Some 4242) 1700000000000;
              EvClose "ab12cd34" (Some 0) None (Some "done") 1700000000800] init);
      [constructor | vm_compute; reflexivity].
  - vm_compute. reflexivity.
Defined.

(** ** Timeout *)

Lemma fired_lookup_tasks (st : State) (ts : list Timer) :
  tasks (with_timers ts st) = tasks st.
Proof. reflexivity. Qed.





(** ** Heartbeats *)

Lemma quiet_refl (taskId : string) (st : State) : quiet taskId st st.
Proof. exists []. by rewrite app_nil_r. Qed.

Lemma quiet_trans (taskId : string) (s1 s2 s3 : State) :
  quiet taskId s1 s2 -> quiet taskId s2 s3 -> quiet taskId s1 s3.
Proof.
  intros (n1 & E1 & F1) (n2 & E2 & F2). exists (n1 ++ n2). split.
  - by rewrite E2, E1, app_assoc.
  - by apply Forall_app.
Qed.

Ltac quiet_same :=
  exists []; split; [cbn; by rewrite app_nil_r | constructor].

Lemma quiet_intro (taskId : string) (st st' : State) (old new : list Effect) :
  old = effects st -> effects st' = old ++ new ->
  Forall (fun e => is_heartbeat_effect taskId e = false) new ->
  quiet taskId st st'.
Proof. intros -> H1 H2. by exists new. Qed.

Ltac quiet_new :=
  match goal with
  | |- quiet ?k ?st _ =>
      let old := fresh "old" in
      let Hold := fresh "Hold" in
      remember (effects st) as old eqn:Hold;
      eapply (quiet_intro k st _ old);
      [ exact Hold
      | cbn; rewrite <- ?Hold, <- ?app_assoc; reflexivity
      | repeat constructor; cbn; try done; by apply String.eqb_neq ]
  end.

(** One turn of the loop, seen from a record that is no longer running: the
    record stays, not running, with the same heartbeat count, and no
    heartbeat of the task is emitted. *)
Lemma step_after_terminal CODEX_PATH homedir (st : State) (ev : Event)
    (k : string) (r : TaskRecord) :
  Inv st -> enabled ev st = true ->
  tasks st !! k = Some r -> status r <> "running" ->
  exists r', tasks (handle CODEX_PATH homedir ev st) !! k = Some r' /\
             status r' <> "running" /\
             heartbeatCount r' = heartbeatCount r /\
             quiet k st (handle CODEX_PATH homedir ev st).
Proof.
  intros HI Hen Hl Hs. pose proof Hs as Hnr. apply is_running_false in Hnr.
  destruct ev as [t args childPid now|t stream bytes data now|t now|t now|t|t
                  |t code signal resultText now|t message errCode now|t appendError|];
    cbn [handle].
  - (* start *)
    cbn in Hen. apply bool_decide_eq_true in Hen.
    assert (t <> k) by congruence.
    exists r. split; [|split; [done|split; [done|]]].
    + unfold handleCodexAgent.
      destruct (0 <? default 0 (arg_timeoutMs args)); cbn;
        by rewrite !lookup_insert_ne.
    + unfold handleCodexAgent.
      destruct (0 <? default 0 (arg_timeoutMs args)); quiet_new.
  - (* stream data *)
    unfold onData. destruct (tasks st !! t) as [r2|] eqn:Hl2.
    + destruct (decide (t = k)) as [->|Hne].
      * simplify_eq. eexists. split; [cbn; apply lookup_insert_eq|].
        split; [done|split; [done|quiet_new]].
      * exists r. split; [cbn; by rewrite lookup_insert_ne|].
        split; [done|split; [done|quiet_new]].
    + exists r. split; [done|]. split; [done|]. split; [done|quiet_same].
  - (* heartbeat tick *)
    unfold heartbeatTick. destruct (tasks st !! t) as [r2|] eqn:Hl2.
    + destruct (decide (t = k)) as [->|Hne].
      * simplify_eq. rewrite Hnr. cbn [negb].
        exists r. split; [done|]. split; [done|]. split; [done|quiet_same].
      * destruct (is_running r2); cbn [negb].
        -- exists r. split; [cbn; by rewrite lookup_insert_ne|].
           split; [done|split; [done|]].
           destruct (120000 <? now - lastActivityAt (incr_heartbeatCount r2)); quiet_new.
        -- exists r. split; [done|]. split; [done|]. split; [done|quiet_same].
    + exists r. split; [done|]. split; [done|]. split; [done|quiet_same].
  - (* timeout *)
    unfold timeoutCallback. rewrite fired_lookup_tasks.
    destruct (tasks st !! t) as [r2|] eqn:Hl2.
    + destruct (decide (t = k)) as [->|Hne].
      * simplify_eq. eexists. split; [cbn; apply lookup_insert_eq|].
        split; [done|split; [done|quiet_new]].
      * exists r. split; [cbn; by rewrite lookup_insert_ne|].
        split; [done|split; [done|quiet_new]].
    + exists r. split; [done|]. split; [done|]. split; [done|quiet_same].
  - (* forced kill after a timeout *)
    unfold killAfterTimeout. rewrite fired_lookup_tasks.
    destruct (tasks st !! t) as [r2|]; [destruct (is_running r2)|];
      exists r; (split; [done|]); (split; [done|]); (split; [done|]);
      first [quiet_same | quiet_new].
  - (* forced kill after a cancel *)
    unfold killAfterCancel. rewrite fired_lookup_tasks.
    destruct (tasks st !! t) as [r2|]; [destruct (is_running r2)|];
      exists r; (split; [done|]); (split; [done|]); (split; [done|]);
      first [quiet_same | quiet_new].
  - (* close *)
    unfold closeHandler. cbn. destruct (tasks st !! t) as [r2|] eqn:Hl2.
    + destruct (decide (t = k)) as [->|Hne].
      * simplify_eq. eexists. split; [cbn; apply lookup_insert_eq|].
        split; [apply closeRecord_not_running|split; [done|]].
        destruct resultText; quiet_new.
      * exists r. split; [cbn; by rewrite lookup_insert_ne|].
        split; [done|split; [done|]]. destruct resultText; quiet_new.
    + exists r. split; [done|]. split; [done|]. split; [done|quiet_same].
  - (* error *)
    unfold errorHandler. cbn. destruct (tasks st !! t) as [r2|] eqn:Hl2.
    + destruct (decide (t = k)) as [->|Hne].
      * simplify_eq. eexists. split; [cbn; apply lookup_insert_eq|].
        split; [done|split; [done|quiet_new]].
      * exists r. split; [cbn; by rewrite lookup_insert_ne|].
        split; [done|split; [done|quiet_new]].
    + exists r. split; [done|]. split; [done|]. split; [done|quiet_same].
  - (* cancel *)
    unfold handleCodexCancel. destruct (tasks st !! t) as [r2|] eqn:Hl2.
    + destruct (decide (t = k)) as [->|Hne].
      * simplify_eq. rewrite Hnr. cbn.
        exists r. split; [done|]. split; [done|]. split; [done|quiet_same].
      * destruct (is_running r2); cbn [negb];
          [destruct (activeProcesses st !! t); [destruct appendError|]|];
          exists r; (split; [cbn; by rewrite ?lookup_insert_ne|]);
          (split; [done|]); (split; [done|]);
          first [quiet_same | quiet_new].
    + exists r. split; [done|]. split; [done|]. split; [done|quiet_same].
  - (* restart *)
    destruct HI as [_ _ _ H4]. destruct (H4 k r Hl Hs) as (d & r0 & Hd & Hl0 & Hh).
    exists (reconcile r0). split.
    + rewrite (restart_lookup st d) by done. by rewrite Hl0.
    + split; [apply reconcile_not_running|].
      split; [by rewrite reconcile_heartbeatCount|quiet_same].
Qed.

(** The same over a whole run of the loop. *)
Lemma run_after_terminal CODEX_PATH homedir (evs : list Event) (st st' : State)
    (k : string) (r : TaskRecord) :
  Inv st -> run CODEX_PATH homedir evs st = Some st' ->
  tasks st !! k = Some r -> status r <> "running" ->
  exists r', tasks st' !! k = Some r' /\ status r' <> "running" /\
             heartbeatCount r' = heartbeatCount r /\ quiet k st st'.
Proof.
  revert st r. induction evs as [|ev evs IH]; intros st r HI Hrun Hl Hs; cbn in Hrun.
  - simplify_eq. exists r. split; [done|]. split; [done|]. split; [done|apply quiet_refl].
  - destruct (enabled ev st) eqn:Hen; [|done].
    destruct (step_after_terminal CODEX_PATH homedir st ev k r HI Hen Hl Hs)
      as (r1 & Hl1 & Hs1 & Hh1 & Hq1).
    destruct (IH (handle CODEX_PATH homedir ev st) r1) as (r' & Hl' & Hs' & Hh' & Hq');
      [by eapply Inv_step | done..|].
    exists r'. split; [done|]. split; [done|]. split; [congruence|].
    by eapply quiet_trans.
Qed.

Lemma cleared_not_armed (k : TimerKind) (taskId : string) (ts : list Timer) :
  existsb (is_timer k taskId) (filter (fun t => is_timer k taskId t = false) ts) = false.
Proof.
  induction ts as [|t ts IH]; [done|].
  rewrite filter_cons. case_decide as Ht; [|done].
  cbn [existsb]. by rewrite Ht.
Qed.

Lemma existsb_filter_false {A} (p : A -> bool) (P : A -> Prop)
    `{!forall x, Decision (P x)} (l : list A) :
  existsb p l = false -> existsb p (filter P l) = false.
Proof.
  induction l as [|x l IH]; [done|]. intros Hex. cbn [existsb] in Hex.
  apply orb_false_iff in Hex as [Hx Hl].
  rewrite filter_cons. case_decide; [|by apply IH].
  cbn [existsb]. rewrite Hx. by apply IH.
Qed.

Lemma closeHandler_timers (st : State) taskId code signal resultText now :
  timers (closeHandler taskId code signal resultText now st) =
  timers (clearTimer Timeout taskId (clearTimer Heartbeat taskId st)).
Proof. unfold closeHandler. cbn. by destruct (tasks st !! taskId). Qed.

Lemma errorHandler_timers (st : State) taskId message errCode now :
  timers (errorHandler taskId message errCode now st) =
  timers (clearTimer Timeout taskId (clearTimer Heartbeat taskId st)).
Proof. unfold errorHandler. cbn. by destruct (tasks st !! taskId). Qed.

Lemma clearTimer_idempotent (k : TimerKind) (taskId : string) (st : State) :
  clearTimer k taskId (clearTimer k taskId st) = clearTimer k taskId st.
Proof.
  unfold clearTimer, with_timers. cbn. f_equal.
  induction (timers st) as [|t ts IH]; [done|].
  rewrite filter_cons. case_decide as Ht; [|done].
  rewrite filter_cons. rewrite decide_True by done. by rewrite IH.
Qed.

(** C9: once the record of a task has a terminal status, no run of the
    server changes its heartbeatCount or emits a heartbeat or stall warning
    for it, and its status stays terminal; the close and error handlers
    clear the heartbeat timer, so that no tick is armed afterwards; a tick
    that still fires on a record that is not running only clears the timer;
    and clearing a timer that is already cleared changes nothing. *)
Theorem C9_no_heartbeat_after_terminal (CODEX_PATH homedir : string)
    (st st' : State) (evs : list Event) (taskId : string) (r : TaskRecord) :
  reachable CODEX_PATH homedir st ->
  tasks st !! taskId = Some r -> terminal (status r) ->
  run CODEX_PATH homedir evs st = Some st' ->
  (exists r', tasks st' !! taskId = Some r' /\ terminal (status r') /\
              heartbeatCount r' = heartbeatCount r /\ quiet taskId st st') /\
  (forall s code signal resultText now now',
     enabled (EvHeartbeat taskId now')
       (closeHandler taskId code signal resultText now s) = false) /\
  (forall s message errCode now now',
     enabled (EvHeartbeat taskId now')
       (errorHandler taskId message errCode now s) = false) /\
  (forall now, heartbeatTick taskId now st = clearTimer Heartbeat taskId st) /\
  (forall s, clearTimer Heartbeat taskId (clearTimer Heartbeat taskId s) =
             clearTimer Heartbeat taskId s).
Proof.
  intros Hreach Hl Hterm Hrun.
  assert (Hs : status r <> "running").
  { destruct Hterm as [E|[E|[E|E]]]; rewrite E; discriminate. }
  split; [|split; [|split; [|split]]].
  - pose proof (reachable_Inv _ _ _ Hreach) as HI.
    destruct (run_after_terminal _ _ evs st st' taskId r HI Hrun Hl Hs)
      as (r' & Hl' & Hs' & Hh' & Hq').
    exists r'. split; [done|]. split; [|done].
    pose proof (reachable_Inv _ _ _ (reachable_run _ _ _ _ _ Hreach Hrun)) as [H1 _ _ _].
    destruct (H1 taskId r' Hl') as [[? _]|[[[?|?] _]|[? _]]]; [done|..]; unfold terminal; auto.
  - intros s code signal resultText now now'. cbn [enabled].
    rewrite closeHandler_timers. cbn.
    apply existsb_filter_false, cleared_not_armed.
  - intros s message errCode now now'. cbn [enabled].
    rewrite errorHandler_timers. cbn.
    apply existsb_filter_false, cleared_not_armed.
  - intros now. unfold heartbeatTick. rewrite Hl.
    apply is_running_false in Hs. by rewrite Hs.
  - intros s. apply clearTimer_idempotent.
Qed.

Lemma C9_no_heartbeat_after_terminal_witness :
  let st := closeHandler "ab12cd34" (Some 1) None None 1700000000800
              (with_children (children sample_started ∖ {["ab12cd34"]}) sample_started) in
  (exists r', tasks (restart st) !! "ab12cd34" = Some r' /\
              terminal (status r') /\ heartbeatCount r' = 0 /\
              quiet "ab12cd34" st (restart st)) /\
  heartbeatTick "ab12cd34" 1700000030000 st = clearTimer Heartbeat "ab12cd34" st.
Proof.
  intros st.
  destruct (C9_no_heartbeat_after_terminal "/usr/bin/codex" "/home/dev" st
              (restart st) [EvRestart] "ab12cd34"
              (closeRecord (Some 1) None None 1700000000800 sample_record))
    as ((r' & H1 & H2 & H3 & H4) & _ & _ & H5 & _).
  - apply (reachable_run _ _
             [EvStart "ab12cd34" sample_args (Some 4242) 1700000000000;
              EvClose "ab12cd34" (Some 1) None None 1700000000800] init);
      [constructor | vm_compute; reflexivity].
  - vm_compute. reflexivity.
  - right. left. reflexivity.
  - reflexivity.
  - split; [|apply H5].
    exists r'. split; [exact H1|]. split; [exact H2|]. split; [exact H3|exact H4].
Defined.

(** * Further properties of the source *)

(** ** Durations: [formatDuration] *)

Lemma string_app_assoc (a b c : string) : (a +:+ b) +:+ c = a +:+ (b +:+ c).
Proof.
  induction a as [|x a IH]; [reflexivity|].
  change (String x ((a +:+ b) +:+ c) = String x (a +:+ (b +:+ c))).
  by rewrite IH.
Qed.

(** The rounding to nearest is off by at most half a unit. *)
Lemma round_half_even_near (a b : Z) :
  0 < b -> - b <= 2 * (b * round_half_even a b - a) <= b.
Proof.
  intros Hb. unfold round_half_even.
  pose proof (Z.div_mod a b ltac:(lia)) as Hdm.
  pose proof (Z.mod_pos_bound a b Hb) as Hr.
  set (q := a / b) in *. set (r := a mod b) in *.
  destruct (Z.ltb_spec (2 * r) b); [lia|].
  destruct (Z.ltb_spec b (2 * r)); [lia|].
  destruct (Z.even q); lia.
Qed.

(** The tenths of a second [toFixed1] prints. *)
Lemma toFixed1_tenths_near (ms : Z) :
  1000 <= ms < 60000 ->
  let k := Z.log2 (ms / 1000) in
  let m := round_half_even (ms * 2 ^ (52 - k)) 1000 in
  let n := (20 * m + 2 ^ (52 - k)) / 2 ^ (53 - k) in
  -50 <= 100 * n - ms <= 50.
Proof.
  intros Hms k m n.
  assert (Hk : 0 <= k <= 5).
  { subst k. split; [apply Z.log2_nonneg|].
    change 5 with (Z.log2 59). apply Z.log2_le_mono.
    Z.div_mod_to_equations. lia. }
  set (P := 2 ^ (52 - k)) in *.
  assert (HP : 2 ^ 47 <= P).
  { subst P. apply Z.pow_le_mono_r; lia. }
  assert (H2P : 2 ^ (53 - k) = 2 * P).
  { subst P. replace (53 - k) with (Z.succ (52 - k)) by lia.
    apply Z.pow_succ_r. lia. }
  change (2 ^ 47) with 140737488355328 in HP.
  pose proof (round_half_even_near (ms * P) 1000 ltac:(lia)) as Hm.
  fold m in Hm.
  subst n. rewrite H2P.
  pose proof (Z.div_mod (20 * m + P) (2 * P) ltac:(lia)) as Hdm.
  pose proof (Z.mod_pos_bound (20 * m + P) (2 * P) ltac:(lia)) as Hr.
  set (n := (20 * m + P) / (2 * P)) in *.
  set (r := (20 * m + P) mod (2 * P)) in *.
  nia.
Qed.

(** X1: between one second and one minute [formatDuration] prints seconds
    with one decimal, and the printed value is within 50 ms of the
    duration. *)
Theorem formatDuration_seconds_rounds (ms : Z) :
  1000 <= ms < 60000 ->
  exists n,
    formatDuration ms = pretty (n / 10) +:+ "." +:+ pretty (n mod 10) +:+ "s" /\
    10 <= n <= 600 /\ -50 <= 100 * n - ms <= 50.
Proof.
  intros Hms. pose proof (toFixed1_tenths_near ms Hms) as Hn. cbv zeta in Hn.
  eexists. split; [|split; [|exact Hn]].
  - unfold formatDuration.
    destruct (ms <? 1000) eqn:E1; [apply Z.ltb_lt in E1; lia|].
    destruct (ms <? 60000) eqn:E2; [|apply Z.ltb_ge in E2; lia].
    unfold toFixed1. cbv zeta.
    rewrite !string_app_assoc. reflexivity.
  - lia.
Qed.

Lemma formatDuration_seconds_rounds_witness :
  exists n,
    formatDuration 1150 = pretty (n / 10) +:+ "." +:+ pretty (n mod 10) +:+ "s" /\
    10 <= n <= 600 /\ -50 <= 100 * n - 1150 <= 50.
Proof. apply (formatDuration_seconds_rounds 1150). lia. Defined.

(** X2: from one minute on, and below [2^53] milliseconds, where the
    quotients of the source are the integer quotients, [formatDuration]
    truncates: below one hour it prints whole minutes and whole seconds,
    dropping less than a second; from one hour on it prints whole hours and
    whole minutes, dropping less than a minute. *)
Theorem formatDuration_truncates (ms : Z) :
  60000 <= ms < 9007199254740992 ->
  (ms < 3600000 ->
   exists m s,
     formatDuration ms = pretty m +:+ "m " +:+ pretty s +:+ "s" /\
     1 <= m <= 59 /\ 0 <= s <= 59 /\
     0 <= ms - (60000 * m + 1000 * s) < 1000) /\
  (3600000 <= ms ->
   exists h m,
     formatDuration ms = pretty h +:+ "h " +:+ pretty m +:+ "m" /\
     1 <= h /\ 0 <= m <= 59 /\
     0 <= ms - (3600000 * h + 60000 * m) < 60000).
Proof.
  intros Hms. unfold formatDuration.
  destruct (ms <? 1000) eqn:E1; [apply Z.ltb_lt in E1; lia|].
  destruct (ms <? 60000) eqn:E2; [apply Z.ltb_lt in E2; lia|].
  split.
  - intros Hlt. apply Z.ltb_lt in Hlt as Hlt'. rewrite Hlt'.
    exists (ms / 60000), ((ms mod 60000) / 1000).
    split; [reflexivity|]. Z.div_mod_to_equations. lia.
  - intros Hge. apply Z.ltb_ge in Hge as Hge'. rewrite Hge'.
    exists (ms / 3600000), ((ms mod 3600000) / 60000).
    split; [reflexivity|]. Z.div_mod_to_equations. lia.
Qed.

Lemma formatDuration_truncates_witness :
  exists m s,
    formatDuration 125999 = pretty m +:+ "m " +:+ pretty s +:+ "s" /\
    1 <= m <= 59 /\ 0 <= s <= 59 /\
    0 <= 125999 - (60000 * m + 1000 * s) < 1000.
Proof.
  refine (proj1 (formatDuration_truncates 125999 _) _); lia.
Defined.

(** ** Signals and exit codes *)

Lemma truthy_true_inv (v : option string) :
  truthy v = true -> exists s, v = Some s /\ s <> "".
Proof.
  destruct v as [s|]; [|done]. cbn. intros H. exists s. split; [done|].
  intros ->. done.
Qed.

Lemma js_or_truthy (a : option string) (s : string) :
  s <> "" -> truthy (js_or a (Some s)) = true.
Proof.
  intros Hs. unfold js_or. destruct (truthy a) eqn:E; [done|].
  by apply truthy_Some_nonempty.
Qed.

Lemma signal_text_nonempty (n : Z) : "signal " +:+ pretty n <> "".
Proof. discriminate. Qed.

Lemma getSignalName_truthy (c : Z) :
  128 < c -> truthy (getSignalName (Some c)) = true.
Proof.
  intros Hc. cbn. apply Z.ltb_lt in Hc. rewrite Hc.
  apply js_or_truthy, signal_text_nonempty.
Qed.

(** X3: [getSignalName] reads a signal out of an exit code exactly when the
    code is above 128; the name is then never empty, so that it counts as
    a signal wherever it is tested. *)
Theorem getSignalName_above_128 (code : option Z) :
  (getSignalName code = None <-> code = None \/ exists c, code = Some c /\ c <= 128) /\
  (forall c, code = Some c -> 128 < c -> truthy (getSignalName code) = true).
Proof.
  split.
  - destruct code as [c|]; cbn; [|by split; [left|]].
    destruct (Z.ltb_spec 128 c) as [Hc|Hc].
    + split.
      * intros H.
        pose proof (js_or_truthy (SIGNALS (c - 128)) _ (signal_text_nonempty (c - 128))) as Ht.
        rewrite H in Ht. done.
      * intros [?|(c' & [= <-] & ?)]; [done|lia].
    + split; [|done]. intros _. right. exists c. split; [done|lia].
  - intros c -> Hc. by apply getSignalName_truthy.
Qed.

Lemma getSignalName_above_128_witness :
  truthy (getSignalName (Some 200)) = true.
Proof.
  apply (proj2 (getSignalName_above_128 (Some 200)) 200); [reflexivity | lia].
Defined.

(** X4: the close handler records an exit signal exactly when the child
    reported one or its exit code is above 128; a reported signal wins over
    the one read from the code. *)
Theorem closeRecord_exitSignal (r : TaskRecord) (code : option Z)
    (signal resultText : option string) (now : Z) :
  exitSignal (closeRecord code signal resultText now r) =
    js_or signal (getSignalName code) /\
  (truthy (exitSignal (closeRecord code signal resultText now r)) = true <->
   truthy signal = true \/ exists c, code = Some c /\ 128 < c).
Proof.
  assert (E : exitSignal (closeRecord code signal resultText now r) =
              js_or signal (getSignalName code)).
  { cbn. unfold js_or. by destruct (truthy signal) eqn:Es; rewrite ?Es. }
  split; [exact E|]. rewrite E. unfold js_or.
  destruct (truthy signal) eqn:Es.
  - rewrite Es. split; [by left | done].
  - split.
    + intros Ht. right. destruct code as [c|]; [|done].
      exists c. split; [done|]. cbn in Ht.
      destruct (Z.ltb_spec 128 c); [done | discriminate].
    + intros [?|(c & -> & Hc)]; [done|].
      by apply getSignalName_truthy.
Qed.

Lemma closeReason_derived (earlier : option string) (code : option Z)
    (signal : option string) :
  truthy earlier = false -> is_zero code = false ->
  truthy (closeReason earlier code signal) = true.
Proof.
  intros He Hnz. unfold closeReason. rewrite He.
  destruct (truthy signal); [done|].
  rewrite Hnz. cbn [negb andb].
  by destruct (truthy (js_or signal (getSignalName code))).
Qed.

Lemma closeRecord_failed_truthy (r : TaskRecord) (code : option Z)
    (signal resultText : option string) (now : Z) :
  status (closeRecord code signal resultText now r) = "failed" ->
  truthy (failureReason (closeRecord code signal resultText now r)) = true.
Proof.
  cbn. destruct (is_zero code) eqn:Ez; [discriminate|]. intros _.
  destruct (truthy (failureReason r)) eqn:He.
  - unfold closeReason. rewrite He. by rewrite He.
  - pose proof (closeReason_derived (failureReason r) code signal He Ez) as Hc.
    rewrite Hc. exact Hc.
Qed.

(** X5: when no reason was recorded before the exit, the close handler
    derives none exactly for an exit with code 0 and no signal; every other
    exit gets a reason, so a task the close handler marks failed always
    carries one. *)
Theorem closeRecord_failed_has_reason (r : TaskRecord) (code : option Z)
    (signal resultText : option string) (now : Z) :
  (truthy (failureReason r) = false ->
   (truthy (closeReason (failureReason r) code signal) = false <->
    code = Some 0 /\ truthy signal = false)) /\
  (status (closeRecord code signal resultText now r) = "failed" ->
   truthy (failureReason (closeRecord code signal resultText now r)) = true).
Proof.
  assert (Hz : is_zero code = true <-> code = Some 0).
  { destruct code as [c|]; cbn; [|done].
    rewrite Z.eqb_eq. split; [by intros -> | by intros [= ->]]. }
  split.
  - intros He. split.
    + intros Hn. destruct (is_zero code) eqn:Ez.
      * split; [by apply Hz|]. unfold closeReason in Hn. rewrite He in Hn.
        by destruct (truthy signal).
      * by rewrite (closeReason_derived _ code signal He Ez) in Hn.
    + intros [Hc Hs]. apply Hz in Hc. unfold closeReason.
      rewrite He, Hs, Hc. cbn [negb andb]. rewrite Bool.andb_false_r. exact He.
  - apply closeRecord_failed_truthy.
Qed.

Lemma closeRecord_failed_has_reason_witness :
  truthy (failureReason (closeRecord (Some 2) None None 1700000000800 sample_record)) = true.
Proof.
  apply (proj2 (closeRecord_failed_has_reason sample_record (Some 2) None None
                  1700000000800)).
  reflexivity.
Defined.

(** ** Saving and loading *)

(** X6: a save followed by a restart brings back every record of the task
    map, each one reconciled: the same identifiers, the records that were
    not running exactly as they were, and no record running. *)
Theorem save_restart_round_trip (st : State) :
  tasks (restart (saveTasks st)) = reconcile <$> tasks st /\
  dom (tasks (restart (saveTasks st))) = dom (tasks st) /\
  (forall k r, tasks st !! k = Some r -> status r <> "running" ->
               tasks (restart (saveTasks st)) !! k = Some r) /\
  (forall k r, tasks (restart (saveTasks st)) !! k = Some r ->
               status r <> "running").
Proof.
  assert (E : tasks (restart (saveTasks st)) = reconcile <$> tasks st).
  { apply map_eq. intros k.
    rewrite (restart_lookup (saveTasks st) (tasks st)) by done.
    by rewrite lookup_fmap. }
  split; [exact E|]. rewrite E. split; [|split].
  - apply dom_fmap_L.
  - intros k r Hl Hs. rewrite lookup_fmap, Hl. cbn. unfold reconcile.
    apply is_running_false in Hs. by rewrite Hs.
  - intros k r. rewrite lookup_fmap.
    destruct (tasks st !! k) as [r0|]; [|done]. intros [= <-].
    apply reconcile_not_running.
Qed.

Lemma save_restart_round_trip_witness :
  tasks (restart (saveTasks
           (closeHandler "ab12cd34" (Some 0) None (Some "done") 1700000000800
              sample_started))) !! "ab12cd34" =
  Some (closeRecord (Some 0) None (Some "done") 1700000000800 sample_record).
Proof.
  apply (proj1 (proj2 (proj2 (save_restart_round_trip
           (closeHandler "ab12cd34" (Some 0) None (Some "done") 1700000000800
              sample_started))))).
  - vm_compute. reflexivity.
  - discriminate.
Defined.

(** X7: the load does not write the tasks file: after a restart the file
    still holds every record as it was saved, so a task marked interrupted
    in memory stays running on disk until a later save, and loading again
    gives the same map. *)
Theorem restart_leaves_file (st : State) (d : gmap string TaskRecord)
    (k : string) (r0 : TaskRecord) :
  tasksFile st = Some d -> d !! k = Some r0 -> status r0 = "running" ->
  tasksFile (restart st) = Some d /\
  (exists r, tasks (restart st) !! k = Some r /\ status r = "interrupted") /\
  tasks (restart (restart st)) = tasks (restart st) /\
  tasksFile (saveTasks (restart st)) = Some (tasks (restart st)).
Proof.
  intros Hd Hl Hs. split; [exact Hd|]. split; [|split; reflexivity].
  eexists. rewrite (restart_lookup st d) by done. rewrite Hl. cbn.
  split; [reflexivity|]. unfold reconcile.
  apply is_running_true in Hs. by rewrite Hs.
Qed.

Lemma restart_leaves_file_witness :
  status <$> (tasksFile (restart sample_started) ≫= (.!! "ab12cd34")) = Some "running" /\
  status <$> (tasks (restart sample_started) !! "ab12cd34") = Some "interrupted".
Proof.
  destruct (restart_leaves_file sample_started (tasks sample_started) "ab12cd34"
              sample_record) as (H1 & (r & H2 & H3) & _).
  - reflexivity.
  - vm_compute. reflexivity.
  - reflexivity.
  - split.
    + rewrite H1. vm_compute. reflexivity.
    + rewrite H2. cbn. by rewrite H3.
Defined.

(** ** Independence of tasks *)

Lemma handle_lookup_ne (CODEX_PATH homedir : string) (st : State)
    (ev : Event) (t k : string) :
  event_task ev = Some t -> t <> k ->
  tasks (handle CODEX_PATH homedir ev st) !! k = tasks st !! k.
Proof.
  intros Hev Hne.
  destruct ev as [t' args childPid now|t' stream bytes data now|t' now|t' now|t'|t'
                  |t' code signal resultText now|t' message errCode now
                  |t' appendError|];
    cbn in Hev; simplify_eq; cbn [handle].
  - unfold handleCodexAgent.
    destruct (0 <? default 0 (arg_timeoutMs args)); cbn; by rewrite !lookup_insert_ne.
  - unfold onData. destruct (tasks st !! t); [|done]. cbn. by rewrite lookup_insert_ne.
  - unfold heartbeatTick. destruct (tasks st !! t) as [r|]; [|done].
    destruct (is_running r); cbn; [by rewrite lookup_insert_ne | done].
  - unfold timeoutCallback. cbn. destruct (tasks st !! t); [|done].
    cbn. by rewrite lookup_insert_ne.
  - unfold killAfterTimeout. cbn. destruct (tasks st !! t) as [r|]; [|done].
    by destruct (is_running r).
  - unfold killAfterCancel. cbn. destruct (tasks st !! t) as [r|]; [|done].
    by destruct (is_running r).
  - unfold closeHandler. cbn. destruct (tasks st !! t); [|done].
    cbn. by rewrite lookup_insert_ne.
  - unfold errorHandler. cbn. destruct (tasks st !! t); [|done].
    cbn. by rewrite lookup_insert_ne.
  - unfold handleCodexCancel. destruct (tasks st !! t) as [r|]; [|done].
    destruct (is_running r); cbn [negb]; [|done].
    destruct (activeProcesses st !! t); [|done].
    destruct appendError; cbn; by rewrite lookup_insert_ne.
Qed.

(** X8: an event of one task leaves the record of every other task as it
    is: tasks do not interfere through the task map. *)
Theorem event_leaves_other_tasks (CODEX_PATH homedir : string) (st : State)
    (ev : Event) (t k : string) :
  event_task ev = Some t -> t <> k ->
  tasks (handle CODEX_PATH homedir ev st) !! k = tasks st !! k.
Proof. apply handle_lookup_ne. Qed.

Lemma event_leaves_other_tasks_witness :
  tasks (handle "/usr/bin/codex" "/home/dev"
           (EvStart "ffff0000" sample_args (Some 4300) 1700000000500) sample_started)
    !! "ab12cd34" = tasks sample_started !! "ab12cd34".
Proof.
  apply (event_leaves_other_tasks "/usr/bin/codex" "/home/dev" sample_started _
           "ffff0000" "ab12cd34"); [reflexivity | discriminate].
Defined.

(** ** More on cancel requests *)

(** X9: a cancel request for an unknown identifier is an error, one for a
    task that is not running is a plain answer, and both leave the server
    as it is; whatever the request, it changes the status of no record. *)
Theorem cancel_never_changes_status (st : State) (taskId : string)
    (appendError : option string) :
  (tasks st !! taskId = None ->
   fst (handleCodexCancel taskId appendError st) =
     {| text := "Task not found: " +:+ taskId; isError := true |} /\
   snd (handleCodexCancel taskId appendError st) = st) /\
  (forall r, tasks st !! taskId = Some r -> status r <> "running" ->
   fst (handleCodexCancel taskId appendError st) =
     {| text := "Task " +:+ taskId +:+ " is not running (status: " +:+
                status r +:+ ")";
        isError := false |} /\
   snd (handleCodexCancel taskId appendError st) = st) /\
  (forall k, status <$> (tasks (snd (handleCodexCancel taskId appendError st)) !! k) =
             status <$> (tasks st !! k)).
Proof.
  split; [|split].
  - intros Hl. unfold handleCodexCancel. by rewrite Hl.
  - intros r Hl Hs. unfold handleCodexCancel. rewrite Hl.
    apply is_running_false in Hs. by rewrite Hs.
  - intros k. unfold handleCodexCancel.
    destruct (tasks st !! taskId) as [r|] eqn:Hl; [|done].
    destruct (is_running r); cbn [negb]; [|done].
    destruct (activeProcesses st !! taskId); [|done].
    destruct (decide (taskId = k)) as [->|Hne].
    + destruct appendError; cbn; by rewrite lookup_insert_eq, Hl.
    + destruct appendError; cbn; by rewrite lookup_insert_ne.
Qed.

Lemma cancel_never_changes_status_witness :
  let st := closeHandler "ab12cd34" (Some 0) None None 1700000000800 sample_started in
  isError (fst (handleCodexCancel "ab12cd34" None st)) = false /\
  snd (handleCodexCancel "ab12cd34" None st) = st.
Proof.
  intros st.
  destruct (proj1 (proj2 (cancel_never_changes_status st "ab12cd34" None))
              (closeRecord (Some 0) None None 1700000000800 sample_record))
    as [H1 H2].
  - vm_compute. reflexivity.
  - discriminate.
  - split; [by rewrite H1 | exact H2].
Defined.

(** X10: of a timeout and a cancel request on the same running task, the
    one that comes last decides the recorded reason, and that reason is the
    one the close handler then keeps. *)
Theorem last_of_timeout_and_cancel_wins (st : State) (taskId : string)
    (r : TaskRecord) (codex : ChildProcess) (now : Z) :
  tasks st !! taskId = Some r -> status r = "running" ->
  activeProcesses st !! taskId = Some codex ->
  let cancel_then_timeout :=
    timeoutCallback taskId now (snd (handleCodexCancel taskId None st)) in
  let timeout_then_cancel :=
    snd (handleCodexCancel taskId None (timeoutCallback taskId now st)) in
  let reason := timeoutReason (now - startedAt r) (timeoutMs r) in
  failureReason <$> (tasks cancel_then_timeout !! taskId) = Some (Some reason) /\
  failureReason <$> (tasks timeout_then_cancel !! taskId) =
    Some (Some "Cancelled by user") /\
  (forall code signal resultText now',
     failureReason <$>
       (tasks (closeHandler taskId code signal resultText now' cancel_then_timeout)
          !! taskId) = Some (Some reason) /\
     failureReason <$>
       (tasks (closeHandler taskId code signal resultText now' timeout_then_cancel)
          !! taskId) = Some (Some "Cancelled by user")).
Proof.
  intros Hl Hs Ha cancel_then_timeout timeout_then_cancel reason.
  assert (H1 : tasks cancel_then_timeout !! taskId =
               Some (set_failureReason (Some reason)
                       (set_failureReason (Some "Cancelled by user") r))).
  { subst cancel_then_timeout.
    rewrite (handleCodexCancel_running st taskId r codex) by done.
    unfold timeoutCallback. cbn. rewrite lookup_insert_eq. cbn.
    by rewrite lookup_insert_eq. }
  assert (H2 : tasks timeout_then_cancel !! taskId =
               Some (set_failureReason (Some "Cancelled by user")
                       (set_failureReason (Some reason) r))).
  { subst timeout_then_cancel. unfold timeoutCallback. rewrite Hl.
    erewrite handleCodexCancel_running;
      [| cbn; apply lookup_insert_eq | exact Hs | exact Ha].
    cbn. by rewrite lookup_insert_eq. }
  split; [by rewrite H1|]. split; [by rewrite H2|].
  intros code signal resultText now'. split.
  - rewrite (closeHandler_lookup _ _ _ _ _ _ _ H1). cbn [fmap option_fmap option_map].
    by rewrite (closeRecord_keeps_reason _ reason)
      by (done || apply timeoutReason_nonempty).
  - rewrite (closeHandler_lookup _ _ _ _ _ _ _ H2). cbn [fmap option_fmap option_map].
    by rewrite (closeRecord_keeps_reason _ "Cancelled by user").
Qed.

Lemma last_of_timeout_and_cancel_wins_witness :
  failureReason <$>
    (tasks (timeoutCallback "ab12cd34" 1700000001001
              (snd (handleCodexCancel "ab12cd34" None sample_started))) !! "ab12cd34") =
  Some (Some "Timeout after 1.0s (limit: 1.0s)").
Proof.
  destruct (last_of_timeout_and_cancel_wins sample_started "ab12cd34" sample_record
              {| child_pid := Some 4242 |} 1700000001001) as (H & _).
  - vm_compute. reflexivity.
  - reflexivity.
  - vm_compute. reflexivity.
  - rewrite H. vm_compute. reflexivity.
Defined.

(** ** Handles and timers *)

Lemma reconcile_id (r : TaskRecord) : status r <> "running" -> reconcile r = r.
Proof. intros Hs. unfold reconcile. apply is_running_false in Hs. by rewrite Hs. Qed.

Lemma armed_elem (k : TimerKind) (taskId : string) (ts : list Timer) :
  existsb (is_timer k taskId) ts = true ->
  exists t, t ∈ ts /\ t_kind t = k /\ t_task t = taskId.
Proof.
  intros (t & Hin & Ht)%existsb_exists. exists t.
  split; [by apply list_elem_of_In|].
  unfold is_timer in Ht. apply andb_true_iff in Ht as [H1 H2].
  apply bool_decide_eq_true in H1. by apply String.eqb_eq in H2.
Qed.

Lemma fired_subset (k : TimerKind) (taskId : string) (ts : list Timer) (t : Timer) :
  t ∈ fired k taskId ts -> t ∈ ts.
Proof.
  induction ts as [|x ts IH]; cbn; [done|].
  destruct (is_timer k taskId x).
  - intros H. by apply elem_of_cons; right.
  - intros [->|H]%elem_of_cons; [by left | right; by apply IH].
Qed.

Lemma cleared_elem (k : TimerKind) (taskId : string) (ts : list Timer) (t : Timer) :
  t ∈ filter (fun t => is_timer k taskId t = false) ts <->
  t ∈ ts /\ (t_kind t = k -> t_task t <> taskId).
Proof.
  rewrite list_elem_of_filter. unfold is_timer. split.
  - intros [H Hin]. split; [done|]. intros Hk Ht.
    rewrite bool_decide_eq_true_2 in H by done.
    apply String.eqb_eq in Ht. by rewrite Ht in H.
  - intros [Hin H]. split; [|done].
    destruct (decide (t_kind t = k)) as [Hk|Hk].
    + rewrite bool_decide_eq_true_2 by done. cbn. apply String.eqb_neq. by apply H.
    + by rewrite bool_decide_eq_false_2.
Qed.

(** A save makes the file agree with the map. *)
Lemma InvAC_save m a c ts f : InvAC m a c ts f -> InvAC m a c ts (Some m).
Proof.
  intros [H1 H2 H3 H4]. split; [done..|].
  intros k r Hl Hs _. exists m, r. split; [done|]. split; [done|]. by apply reconcile_id.
Qed.

(** An update of one record that is running or whose child is open, keeping
    its status, pid and timeout; timers may go, and forced kills come. *)
Lemma InvAC_update m a c ts f (k : string) (r r' : TaskRecord) (ts' : list Timer) :
  InvAC m a c ts f -> m !! k = Some r ->
  status r = "running" \/ k ∈ c ->
  status r' = status r -> pid r' = pid r -> timeoutMs r' = timeoutMs r ->
  (forall t, t ∈ ts' -> t_kind t = Heartbeat \/ t_kind t = Timeout -> t ∈ ts) ->
  InvAC (<[k := r']> m) a c ts' f.
Proof.
  intros [H1 H2 H3 H4] Hl Hor Hs Hp Ht Hts. split.
  - intros k' h Ha. destruct (H1 k' h Ha) as (Hc & r0 & Hl0 & Hs0 & Hp0).
    split; [done|]. destruct (decide (k = k')) as [->|Hne].
    + exists r'. rewrite lookup_insert_eq. simplify_eq. split; [done|]. split; congruence.
    + exists r0. by rewrite lookup_insert_ne.
  - intros t Hin Hk. apply H2; [by apply Hts | done].
  - intros t Hin Hk. destruct (H3 t (Hts t Hin (or_intror Hk)) Hk) as (r0 & Hl0 & Hd & Hpos).
    destruct (decide (k = t_task t)) as [->|Hne].
    + exists r'. rewrite lookup_insert_eq. simplify_eq. split; [done|]. split; [congruence|lia].
    + exists r0. by rewrite lookup_insert_ne.
  - intros k' r0 Hl0 Hs0 Hc. destruct (decide (k = k')) as [->|Hne].
    + rewrite lookup_insert_eq in Hl0. simplify_eq.
      destruct Hor as [Hrun|Hin]; [congruence | done].
    + rewrite lookup_insert_ne in Hl0 by done. eauto.
Qed.

(** Timers may always go. *)
Lemma InvAC_timers m a c ts f (ts' : list Timer) :
  InvAC m a c ts f ->
  (forall t, t ∈ ts' -> t_kind t = Heartbeat \/ t_kind t = Timeout -> t ∈ ts) ->
  InvAC m a c ts' f.
Proof.
  intros [H1 H2 H3 H4] Hts. split; [done| | |done].
  - intros t Hin Hk. apply H2; [by apply Hts | done].
  - intros t Hin Hk. apply H3; [apply Hts; [done | by right] | done].
Qed.

Lemma InvA_init : InvA init.
Proof.
  split; cbn.
  - intros k h H. by rewrite lookup_empty in H.
  - intros t H. by apply elem_of_nil in H.
  - intros t H. by apply elem_of_nil in H.
  - intros k r H. by rewrite lookup_empty in H.
Qed.

Lemma InvA_onData (st : State) stream taskId bytes data now :
  InvA st -> taskId ∈ children st -> InvA (onData stream taskId bytes data now st).
Proof.
  intros HI Hc. unfold onData. destruct (tasks st !! taskId) as [r|] eqn:Hl; [|done].
  unfold InvA. cbn. eapply InvAC_update; eauto.
Qed.

Lemma InvA_heartbeatTick (st : State) taskId now :
  InvA st -> InvA (heartbeatTick taskId now st).
Proof.
  intros HI. unfold heartbeatTick.
  destruct (tasks st !! taskId) as [r|] eqn:Hl; [|done].
  destruct (is_running r) eqn:Hr; cbn [negb].
  - unfold InvA. cbn. apply InvAC_save with (f := tasksFile st).
    apply is_running_true in Hr. eapply InvAC_update; eauto.
  - unfold InvA. cbn. eapply InvAC_timers; [exact HI|].
    intros t Hin _. by apply cleared_elem in Hin as [? _].
Qed.

Lemma InvA_timeoutCallback (st : State) taskId now :
  InvA st -> existsb (is_timer Timeout taskId) (timers st) = true ->
  InvA (timeoutCallback taskId now (with_timers (fired Timeout taskId (timers st)) st)).
Proof.
  intros HI Hen. unfold timeoutCallback. cbn.
  destruct (tasks st !! taskId) as [r|] eqn:Hl.
  - unfold InvA. cbn. eapply InvAC_update; [exact HI | exact Hl | | done..|].
    + left. destruct (armed_elem _ _ _ Hen) as (t & Hin & Hk & Ht).
      destruct HI as [H1 H2 _ _].
      destruct (H2 t Hin (or_intror Hk)) as [h Hh]. rewrite Ht in Hh.
      destruct (H1 _ _ Hh) as (_ & r0 & Hl0 & Hs0 & _). congruence.
    + intros t [Hin|Hin]%elem_of_app Hk.
      * by eapply fired_subset.
      * apply list_elem_of_singleton in Hin as ->. by destruct Hk.
  - unfold InvA. cbn. eapply InvAC_timers; [exact HI|].
    intros t Hin _. by eapply fired_subset.
Qed.

Lemma InvA_killAfterTimeout (st : State) taskId :
  InvA st ->
  InvA (killAfterTimeout taskId (with_timers (fired KillAfterTimeout taskId (timers st)) st)).
Proof.
  intros HI. unfold killAfterTimeout. cbn.
  assert (H : InvAC (tasks st) (activeProcesses st) (children st)
                (fired KillAfterTimeout taskId (timers st)) (tasksFile st)).
  { eapply InvAC_timers; [exact HI|]. intros t Hin _. by eapply fired_subset. }
  destruct (tasks st !! taskId) as [r|]; [|done]. by destruct (is_running r).
Qed.

Lemma InvA_killAfterCancel (st : State) taskId :
  InvA st ->
  InvA (killAfterCancel taskId (with_timers (fired KillAfterCancel taskId (timers st)) st)).
Proof.
  intros HI. unfold killAfterCancel. cbn.
  assert (H : InvAC (tasks st) (activeProcesses st) (children st)
                (fired KillAfterCancel taskId (timers st)) (tasksFile st)).
  { eapply InvAC_timers; [exact HI|]. intros t Hin _. by eapply fired_subset. }
  destruct (tasks st !! taskId) as [r|]; [|done]. by destruct (is_running r).
Qed.

Lemma InvA_handleCodexCancel (st : State) taskId appendError :
  InvA st -> InvA (snd (handleCodexCancel taskId appendError st)).
Proof.
  intros HI. unfold handleCodexCancel.
  destruct (tasks st !! taskId) as [r|] eqn:Hl; [|done].
  destruct (is_running r) eqn:Hr; cbn [negb]; [|done].
  apply is_running_true in Hr.
  destruct (activeProcesses st !! taskId); [|done].
  destruct appendError; unfold InvA; cbn.
  - eapply InvAC_update; eauto.
  - eapply InvAC_update; [exact HI | exact Hl | by left | done..|].
    intros t [Hin|Hin]%elem_of_app Hk; [done|].
    apply list_elem_of_singleton in Hin as ->. by destruct Hk.
Qed.

Lemma InvAC_closed m a c ts f (k : string) (m' : gmap string TaskRecord) :
  InvAC m a c ts f ->
  (forall k', k' <> k -> m' !! k' = m !! k') ->
  (forall r', m' !! k = Some r' -> status r' <> "running" /\
     exists r, m !! k = Some r /\ timeoutMs r' = timeoutMs r) ->
  forall c', c' ⊆ c ->
  (forall k', k' <> k -> k' ∈ c -> k' ∈ c') ->
  InvAC m' (delete k a) c'
    (filter (fun t => is_timer Timeout k t = false)
       (filter (fun t => is_timer Heartbeat k t = false) ts)) (Some m').
Proof.
  intros [H1 H2 H3 H4] Hne Hk c' Hsub Hgone. split.
  - intros k' h Ha. destruct (decide (k = k')) as [->|Hn].
    { by rewrite lookup_delete_eq in Ha. }
    rewrite lookup_delete_ne in Ha by done.
    destruct (H1 k' h Ha) as (Hc & r0 & Hl0 & Hs0 & Hp0).
    assert (Hl' : m' !! k' = Some r0) by (rewrite Hne; done).
    split; [by apply Hgone | by exists r0].
  - intros t [[Hin Hhb]%cleared_elem Hto]%cleared_elem Hkind.
    assert (t_task t <> k) by (destruct Hkind; eauto).
    rewrite lookup_delete_ne by done. by apply H2.
  - intros t [[Hin Hhb]%cleared_elem Hto]%cleared_elem Hkind.
    destruct (H3 t Hin Hkind) as (r0 & Hl0 & Hd & Hpos).
    exists r0. rewrite Hne by eauto. done.
  - intros k' r Hl Hs _. exists m', r. split; [done|]. split; [done|].
    by apply reconcile_id.
Qed.

Lemma InvAC_closed_unknown m a c ts f (k : string) (c' : gset string) :
  InvAC m a c ts f -> m !! k = None ->
  c' ⊆ c -> (forall k', k' ∈ c -> k' ∉ c' -> k' = k) ->
  InvAC m (delete k a) c'
    (filter (fun t => is_timer Timeout k t = false)
       (filter (fun t => is_timer Heartbeat k t = false) ts)) f.
Proof.
  intros [H1 H2 H3 H4] Hl Hsub Honly. split.
  - intros k' h Ha. destruct (decide (k = k')) as [->|Hn].
    { by rewrite lookup_delete_eq in Ha. }
    rewrite lookup_delete_ne in Ha by done.
    destruct (H1 k' h Ha) as (Hc & r0 & Hl0 & Hs0 & Hp0).
    split; [|by exists r0].
    destruct (decide (k' ∈ c')); [done|]. by destruct Hn; symmetry; apply Honly.
  - intros t [[Hin Hhb]%cleared_elem Hto]%cleared_elem Hkind.
    assert (t_task t <> k) by (destruct Hkind; eauto).
    rewrite lookup_delete_ne by done. by apply H2.
  - intros t [[Hin Hhb]%cleared_elem Hto]%cleared_elem Hkind. by apply H3.
  - intros k' r Hl' Hs Hc. apply H4; [done..|].
    intros Hin. assert (k' = k) as -> by by apply Honly. congruence.
Qed.

Lemma InvA_closeHandler (st : State) taskId code signal resultText now :
  InvA st ->
  InvA (closeHandler taskId code signal resultText now
          (with_children (children st ∖ {[taskId]}) st)).
Proof.
  intros HI. unfold closeHandler. cbn.
  destruct (tasks st !! taskId) as [r|] eqn:Hl; unfold InvA; cbn.
  - eapply InvAC_closed; [exact HI | | | set_solver |].
    + intros k' Hn. by rewrite lookup_insert_ne.
    + intros r'. rewrite lookup_insert_eq. intros [= <-].
      split; [apply closeRecord_not_running | by exists r].
    + intros k' Hn Hin. set_solver.
  - eapply InvAC_closed_unknown; [exact HI | done | set_solver |].
    intros k' Hin Hnin. destruct (decide (k' = taskId)); [done|]. set_solver.
Qed.

Lemma InvA_errorHandler (st : State) taskId message errCode now :
  InvA st -> InvA (errorHandler taskId message errCode now st).
Proof.
  intros HI. unfold errorHandler. cbn.
  destruct (tasks st !! taskId) as [r|] eqn:Hl; unfold InvA; cbn.
  - eapply InvAC_closed; [exact HI | | | done | done].
    + intros k' Hn. by rewrite lookup_insert_ne.
    + intros r'. rewrite lookup_insert_eq. intros [= <-].
      split; [discriminate | by exists r].
  - eapply InvAC_closed_unknown; [exact HI | done | done | done].
Qed.

Lemma InvA_handleCodexAgent CODEX_PATH homedir (st : State) taskId args childPid now :
  InvA st -> tasks st !! taskId = None ->
  InvA (handleCodexAgent CODEX_PATH homedir taskId args childPid now st).
Proof.
  intros [H1 H2 H3 H4] Hfresh. unfold handleCodexAgent.
  set (r1 := newTaskRecord CODEX_PATH homedir taskId args None now).
  set (r2 := newTaskRecord CODEX_PATH homedir taskId args childPid now).
  set (hb := {| t_kind := Heartbeat; t_task := taskId; t_delay := 30000 |}).
  set (to := {| t_kind := Timeout; t_task := taskId;
                t_delay := timer_delay (default 0 (arg_timeoutMs args)) |}).
  assert (Hold : forall k, is_Some (tasks st !! k) -> taskId <> k).
  { intros k [r Hr] ->. congruence. }
  assert (HI : forall ts', (forall t, t ∈ ts' -> t ∈ timers st \/ t = hb \/
                  (t = to /\ 0 < default 0 (arg_timeoutMs args))) ->
    InvAC (<[taskId := r2]> (<[taskId := r1]> (tasks st)))
      (<[taskId := {| child_pid := childPid |}]> (activeProcesses st))
      ({[taskId]} ∪ children st) ts'
      (Some (<[taskId := r2]> (<[taskId := r1]> (tasks st))))).
  { intros ts' Hts'. split.
    - intros k h Ha. destruct (decide (taskId = k)) as [->|Hn].
      + rewrite lookup_insert_eq in Ha. simplify_eq.
        split; [set_solver|]. exists r2. by rewrite lookup_insert_eq.
      + rewrite lookup_insert_ne in Ha by done.
        destruct (H1 k h Ha) as (Hc & r0 & Hl0 & Hs0 & Hp0).
        split; [set_solver|]. exists r0. by rewrite !lookup_insert_ne.
    - intros t Hin Hk. destruct (Hts' t Hin) as [Hold'|[->|[-> _]]].
      + destruct (decide (taskId = t_task t)) as [<-|Hn].
        * rewrite lookup_insert_eq. by eexists.
        * rewrite lookup_insert_ne by done. by apply H2.
      + cbn. rewrite lookup_insert_eq. by eexists.
      + cbn. rewrite lookup_insert_eq. by eexists.
    - intros t Hin Hk. destruct (Hts' t Hin) as [Hold'|[->|[-> Hpos]]].
      + destruct (H3 t Hold' Hk) as (r0 & Hl0 & Hd & Hpos).
        exists r0. rewrite !lookup_insert_ne by (apply Hold; eauto). done.
      + done.
      + exists r2. cbn. by rewrite lookup_insert_eq.
    - intros k r Hl Hs _. eexists _, r. split; [done|]. split; [done|].
      by apply reconcile_id. }
  destruct (0 <? default 0 (arg_timeoutMs args)) eqn:Hpos; cbn; apply HI.
  - apply Z.ltb_lt in Hpos.
    intros t [[Hin|Hin]%elem_of_app|Hin]%elem_of_app.
    + by left.
    + apply list_elem_of_singleton in Hin as ->. right. by left.
    + apply list_elem_of_singleton in Hin as ->. right. by right.
  - intros t [Hin|Hin]%elem_of_app.
    + by left.
    + apply list_elem_of_singleton in Hin as ->. right. by left.
Qed.

Lemma InvA_restart (st : State) : InvA st -> InvA (restart st).
Proof.
  intros _. split.
  - intros k h H. cbn in H. by rewrite lookup_empty in H.
  - intros t H. cbn in H. by apply elem_of_nil in H.
  - intros t H. cbn in H. by apply elem_of_nil in H.
  - change (tasksFile (restart st)) with (tasksFile st).
    intros k r Hl Hs _. destruct (tasksFile st) as [d|] eqn:Hd.
    + rewrite (restart_lookup st d) in Hl by done.
      destruct (d !! k) as [r0|] eqn:Hl0; [|done]. cbn in Hl. simplify_eq.
      by exists d, r0.
    + rewrite (restart_no_file st Hd) in Hl. by rewrite lookup_empty in Hl.
Qed.

(** Every turn of the loop keeps the invariant on handles and timers. *)
Lemma InvA_step CODEX_PATH homedir (st : State) (ev : Event) :
  InvA st -> enabled ev st = true -> InvA (handle CODEX_PATH homedir ev st).
Proof.
  intros HI Hen. destruct ev; cbn [handle]; cbn [enabled] in Hen.
  - apply InvA_handleCodexAgent; [done | by apply bool_decide_eq_true in Hen].
  - apply InvA_onData; [done | by apply bool_decide_eq_true in Hen].
  - by apply InvA_heartbeatTick.
  - by apply InvA_timeoutCallback.
  - by apply InvA_killAfterTimeout.
  - by apply InvA_killAfterCancel.
  - by apply InvA_closeHandler.
  - by apply InvA_errorHandler.
  - by apply InvA_handleCodexCancel.
  - by apply InvA_restart.
Qed.

Lemma reachable_InvA CODEX_PATH homedir (st : State) :
  reachable CODEX_PATH homedir st -> InvA st.
Proof.
  induction 1 as [|st ev st' _ IH [Hen ->]]; [apply InvA_init | by apply InvA_step].
Qed.

(** X12: in every reachable state a registered handle belongs to a record
    that is running and has the pid of that handle, and a heartbeat or a
    timeout can fire only for a running task; in particular the guard of
    the heartbeat tick on the status never finds a task that has stopped
    running, and a timeout fires only for a task started with a positive
    timeout. *)
Theorem handles_and_timers_of_running_tasks (CODEX_PATH homedir : string)
    (st : State) :
  reachable CODEX_PATH homedir st ->
  (forall k h, activeProcesses st !! k = Some h ->
     exists r, tasks st !! k = Some r /\ status r = "running" /\
               pid r = child_pid h) /\
  (forall k now, enabled (EvHeartbeat k now) st = true ->
     exists r, tasks st !! k = Some r /\ status r = "running" /\
               heartbeatCount <$> (tasks (heartbeatTick k now st) !! k) =
                 Some (heartbeatCount r + 1)) /\
  (forall k now, enabled (EvTimeout k now) st = true ->
     exists r, tasks st !! k = Some r /\ status r = "running" /\
               0 < timeoutMs r).
Proof.
  intros [H1 H2 H3 H4]%reachable_InvA.
  assert (Hrun : forall t, t ∈ timers st -> t_kind t = Heartbeat \/ t_kind t = Timeout ->
            exists r, tasks st !! t_task t = Some r /\ status r = "running").
  { intros t Hin Hk. destruct (H2 t Hin Hk) as [h Hh].
    destruct (H1 _ _ Hh) as (_ & r & ? & ? & _). by exists r. }
  split; [|split].
  - intros k h Hh. by destruct (H1 k h Hh) as [_ ?].
  - intros k now Hen. cbn in Hen.
    destruct (armed_elem _ _ _ Hen) as (t & Hin & Hk & <-).
    destruct (Hrun t Hin (or_introl Hk)) as (r & Hl & Hs).
    exists r. split; [done|]. split; [done|].
    unfold heartbeatTick. rewrite Hl.
    apply is_running_true in Hs. rewrite Hs. cbn. by rewrite lookup_insert_eq.
  - intros k now Hen. cbn in Hen.
    destruct (armed_elem _ _ _ Hen) as (t & Hin & Hk & <-).
    destruct (Hrun t Hin (or_intror Hk)) as (r & Hl & Hs).
    destruct (H3 t Hin Hk) as (r' & Hl' & Hd & Hpos).
    exists r. split; [done|]. split; [done|]. simplify_eq. lia.
Qed.

Lemma handles_and_timers_of_running_tasks_witness :
  exists r, tasks sample_started !! "ab12cd34" = Some r /\
            status r = "running" /\ 0 < timeoutMs r.
Proof.
  refine (proj2 (proj2 (handles_and_timers_of_running_tasks "/usr/bin/codex"
                          "/home/dev" sample_started _)) "ab12cd34" 1700000001001 _).
  - apply (reachable_run _ _
             [EvStart "ab12cd34" sample_args (Some 4242) 1700000000000] init);
      [constructor | vm_compute; reflexivity].
  - vm_compute. reflexivity.
Defined.

(** ** Finished records do not change *)




(** ** Signals *)

Lemma graceful_app (es new : list Effect) :
  graceful es ->
  Forall (fun e => forall k, e = Kill k "SIGKILL" -> Kill k "SIGTERM" ∈ es) new ->
  graceful (es ++ new).
Proof.
  intros Hg Hnew i k Hi.
  destruct (decide (i < length es)%nat) as [Hlt|Hge].
  - rewrite lookup_app_l in Hi by done.
    destruct (Hg i k Hi) as (j & Hj & Hlj). exists j. split; [done|].
    rewrite lookup_app_l by lia. done.
  - rewrite lookup_app_r in Hi by lia.
    pose proof (Forall_lookup_1 _ _ _ _ Hnew Hi k eq_refl) as Hin.
    apply list_elem_of_lookup_1 in Hin as [j Hj].
    exists j. split.
    + apply lookup_lt_Some in Hj. lia.
    + by apply lookup_app_l_Some.
Qed.

Lemma InvK_intro (st st' : State) (old new : list Effect) :
  InvK st -> old = effects st -> effects st' = old ++ new ->
  (forall t, t ∈ timers st' ->
     t_kind t = KillAfterTimeout \/ t_kind t = KillAfterCancel ->
     t ∈ timers st \/ Kill (t_task t) "SIGTERM" ∈ new) ->
  Forall (fun e => forall k, e = Kill k "SIGKILL" -> Kill k "SIGTERM" ∈ old) new ->
  InvK st'.
Proof.
  intros [H1 H2] -> He Hts Hnew. split; rewrite He.
  - intros t Hin Hk. apply elem_of_app. destruct (Hts t Hin Hk); [left|right]; auto.
  - by apply graceful_app.
Qed.

Lemma InvK_same (st st' : State) :
  InvK st -> effects st' = effects st ->
  (forall t, t ∈ timers st' -> t ∈ timers st) -> InvK st'.
Proof.
  intros HI He Hts. apply (InvK_intro st st' (effects st) []); [done..| | |].
  - by rewrite app_nil_r.
  - intros t Hin _. left. by apply Hts.
  - constructor.
Qed.

Ltac grow_effects :=
  match goal with
  | |- InvK _ =>
      let old := fresh "old" in
      let Hold := fresh "Hold" in
      match goal with
      | HI : InvK ?st |- _ =>
          remember (effects st) as old eqn:Hold;
          eapply (InvK_intro st _ old);
          [ exact HI | exact Hold
          | cbn; rewrite <- ?Hold, <- ?app_assoc; reflexivity | | ]
      end
  end.

Ltac no_sigkill := repeat constructor; intros ? ?; discriminate.

Lemma InvK_step CODEX_PATH homedir (st : State) (ev : Event) :
  InvK st -> enabled ev st = true -> InvK (handle CODEX_PATH homedir ev st).
Proof.
  intros HI Hen.
  destruct ev as [t args childPid now|t stream bytes data now|t now|t now|t|t
                  |t code signal resultText now|t message errCode now|t appendError|];
    cbn [handle]; cbn [enabled] in Hen.
  - unfold handleCodexAgent.
    destruct (0 <? default 0 (arg_timeoutMs args)); grow_effects; try no_sigkill.
    + cbn. intros x [[Hin|Hin]%elem_of_app|Hin]%elem_of_app Hk; [by left|..];
        apply list_elem_of_singleton in Hin as ->; by destruct Hk.
    + cbn. intros x [Hin|Hin]%elem_of_app Hk; [by left|].
      apply list_elem_of_singleton in Hin as ->. by destruct Hk.
  - unfold onData. destruct (tasks st !! t); [|done].
    grow_effects; [by left | no_sigkill].
  - unfold heartbeatTick. destruct (tasks st !! t) as [r|]; [|done].
    destruct (is_running r); cbn [negb].
    + destruct (120000 <? now - lastActivityAt (incr_heartbeatCount r));
        grow_effects; try no_sigkill; by left.
    + apply (InvK_same st); [done..|]. cbn. intros x Hin.
      by apply cleared_elem in Hin as [? _].
  - unfold timeoutCallback. cbn. destruct (tasks st !! t) as [r|].
    + grow_effects; [|no_sigkill].
      cbn. intros x [Hin|Hin]%elem_of_app Hk.
      * left. by eapply fired_subset.
      * apply list_elem_of_singleton in Hin as ->. right. cbn. set_solver.
    + apply (InvK_same st); [done..|]. cbn. intros x Hin. by eapply fired_subset.
  - destruct (armed_elem _ _ _ Hen) as (x & Hin & Hk & Ht).
    pose proof (k_armed _ _ HI x Hin (or_introl Hk)) as Hterm. rewrite Ht in Hterm.
    unfold killAfterTimeout. cbn. destruct (tasks st !! t) as [r|];
      [destruct (is_running r)|].
    + grow_effects.
      * cbn. intros y Hy _. left. by eapply fired_subset.
      * repeat constructor. intros k [= <-]. by subst.
    + apply (InvK_same st); [done..|]. cbn. intros y Hy. by eapply fired_subset.
    + apply (InvK_same st); [done..|]. cbn. intros y Hy. by eapply fired_subset.
  - destruct (armed_elem _ _ _ Hen) as (x & Hin & Hk & Ht).
    pose proof (k_armed _ _ HI x Hin (or_intror Hk)) as Hterm. rewrite Ht in Hterm.
    unfold killAfterCancel. cbn. destruct (tasks st !! t) as [r|];
      [destruct (is_running r)|].
    + grow_effects.
      * cbn. intros y Hy _. left. by eapply fired_subset.
      * repeat constructor; [intros k [= <-]; by subst | intros k; discriminate].
    + apply (InvK_same st); [done..|]. cbn. intros y Hy. by eapply fired_subset.
    + apply (InvK_same st); [done..|]. cbn. intros y Hy. by eapply fired_subset.
  - unfold closeHandler. cbn. destruct (tasks st !! t) as [r|].
    + destruct resultText; grow_effects; try no_sigkill;
        cbn; intros x Hin _; left;
        by apply cleared_elem in Hin as [Hin _]; apply cleared_elem in Hin as [? _].
    + apply (InvK_same st); [done..|]. cbn. intros x Hin.
      by apply cleared_elem in Hin as [Hin _]; apply cleared_elem in Hin as [? _].
  - unfold errorHandler. cbn. destruct (tasks st !! t) as [r|].
    + grow_effects; try no_sigkill.
      cbn. intros x Hin _. left.
      by apply cleared_elem in Hin as [Hin _]; apply cleared_elem in Hin as [? _].
    + apply (InvK_same st); [done..|]. cbn. intros x Hin.
      by apply cleared_elem in Hin as [Hin _]; apply cleared_elem in Hin as [? _].
  - unfold handleCodexCancel. destruct (tasks st !! t) as [r|]; [|done].
    destruct (is_running r); cbn [negb]; [|done].
    destruct (activeProcesses st !! t); [|done].
    destruct appendError.
    + by apply (InvK_same st).
    + grow_effects; [|no_sigkill].
      cbn. intros x [Hin|Hin]%elem_of_app Hk; [by left|].
      apply list_elem_of_singleton in Hin as ->. right. cbn. set_solver.
  - apply (InvK_same st); [done..|]. cbn. intros x Hin. by apply elem_of_nil in Hin.
Qed.

Lemma reachable_InvK CODEX_PATH homedir (st : State) :
  reachable CODEX_PATH homedir st -> InvK st.
Proof.
  induction 1 as [|st ev st' _ IH [Hen ->]]; [|by apply InvK_step].
  split; cbn.
  - intros t H. by apply elem_of_nil in H.
  - intros i k H. by rewrite lookup_nil in H.
Qed.

(** X14: termination is always graceful first: in the effects of every
    reachable state, each SIGKILL sent to a child comes after a SIGTERM
    sent to the same child. *)
Theorem sigkill_only_after_sigterm (CODEX_PATH homedir : string) (st : State)
    (i : nat) (k : string) :
  reachable CODEX_PATH homedir st ->
  effects st !! i = Some (Kill k "SIGKILL") ->
  exists j, (j < i)%nat /\ effects st !! j = Some (Kill k "SIGTERM").
Proof. intros [_ Hg]%reachable_InvK. apply Hg. Qed.

Lemma sigkill_only_after_sigterm_witness :
  exists j, (j < 10)%nat /\
    effects (handle "/usr/bin/codex" "/home/dev" (EvKillAfterTimeout "ab12cd34")
               (handle "/usr/bin/codex" "/home/dev"
                  (EvTimeout "ab12cd34" 1700000001001) sample_started)) !! j =
    Some (Kill "ab12cd34" "SIGTERM").
Proof.
  apply (sigkill_only_after_sigterm "/usr/bin/codex" "/home/dev").
  - apply (reachable_run _ _
             [EvStart "ab12cd34" sample_args (Some 4242) 1700000000000;
              EvTimeout "ab12cd34" 1700000001001;
              EvKillAfterTimeout "ab12cd34"] init);
      [constructor | vm_compute; reflexivity].
  - vm_compute. reflexivity.
Defined.

Ltac new_in H :=
  unfold new_effects in H; cbn [handle] in H;
  match type of H with
  | _ ∈ drop (length ?o) _ =>
      let old := fresh "old" in
      let Hold := fresh "Hold" in
      remember o as old eqn:Hold;
      cbn in H; rewrite <- ?Hold, <- ?app_assoc in H;
      first [ rewrite drop_app_length in H
            | rewrite drop_all in H; by apply elem_of_nil in H ]
  end.

(** X15: the server signals a child only on behalf of a task whose record
    is running at that moment: every SIGTERM or SIGKILL an event sends goes
    to the task of that event, and the record of that task is running. *)
Theorem signals_only_to_running_tasks (CODEX_PATH homedir : string)
    (st : State) (ev : Event) (k signal : string) :
  reachable CODEX_PATH homedir st -> enabled ev st = true ->
  Kill k signal ∈ new_effects CODEX_PATH homedir ev st ->
  event_task ev = Some k /\
  exists r, tasks st !! k = Some r /\ status r = "running".
Proof.
  intros HI%reachable_InvA Hen Hin.
  destruct ev as [t args childPid now|t stream bytes data now|t now|t now|t|t
                  |t code signal' resultText now|t message errCode now|t appendError|];
    cbn [enabled] in Hen.
  - unfold new_effects in Hin. cbn [handle] in Hin. unfold handleCodexAgent in Hin.
    destruct (0 <? default 0 (arg_timeoutMs args));
      new_in Hin; set_solver.
  - unfold new_effects in Hin. cbn [handle] in Hin. unfold onData in Hin.
    destruct (tasks st !! t); new_in Hin; set_solver.
  - unfold new_effects in Hin. cbn [handle] in Hin. unfold heartbeatTick in Hin.
    destruct (tasks st !! t) as [r|]; [destruct (is_running r)|]; cbn [negb] in Hin;
      [destruct (120000 <? now - lastActivityAt (incr_heartbeatCount r))|..];
      new_in Hin; set_solver.
  - destruct (armed_elem _ _ _ Hen) as (x & Hx & Hk & Ht).
    destruct HI as [H1 H2 _ _].
    destruct (H2 x Hx (or_intror Hk)) as [h Hh]. rewrite Ht in Hh.
    destruct (H1 _ _ Hh) as (_ & r & Hl & Hs & _).
    unfold new_effects in Hin. cbn [handle] in Hin. unfold timeoutCallback in Hin.
    cbn in Hin. rewrite Hl in Hin. new_in Hin.
    assert (k = t) as -> by set_solver. split; [done|]. by exists r.
  - unfold new_effects in Hin. cbn [handle] in Hin. unfold killAfterTimeout in Hin.
    cbn in Hin. destruct (tasks st !! t) as [r|] eqn:Hl;
      [destruct (is_running r) eqn:Hr|]; new_in Hin.
    assert (k = t) as -> by set_solver. split; [done|].
    exists r. split; [done | by apply is_running_true].
  - unfold new_effects in Hin. cbn [handle] in Hin. unfold killAfterCancel in Hin.
    cbn in Hin. destruct (tasks st !! t) as [r|] eqn:Hl;
      [destruct (is_running r) eqn:Hr|]; new_in Hin.
    assert (k = t) as -> by set_solver. split; [done|].
    exists r. split; [done | by apply is_running_true].
  - unfold new_effects in Hin. cbn [handle] in Hin. unfold closeHandler in Hin.
    cbn in Hin. destruct (tasks st !! t); [destruct resultText|];
      new_in Hin; set_solver.
  - unfold new_effects in Hin. cbn [handle] in Hin. unfold errorHandler in Hin.
    cbn in Hin. destruct (tasks st !! t); new_in Hin; set_solver.
  - unfold new_effects in Hin. cbn [handle] in Hin. unfold handleCodexCancel in Hin.
    destruct (tasks st !! t) as [r|] eqn:Hl; [|new_in Hin].
    destruct (is_running r) eqn:Hr; cbn [negb] in Hin; [|new_in Hin].
    destruct (activeProcesses st !! t); [|new_in Hin].
    destruct appendError; new_in Hin.
    assert (k = t) as -> by set_solver. split; [done|].
    exists r. split; [done | by apply is_running_true].
  - new_in Hin.
Qed.

Lemma signals_only_to_running_tasks_witness :
  exists r, tasks sample_started !! "ab12cd34" = Some r /\ status r = "running".
Proof.
  refine (proj2 (signals_only_to_running_tasks "/usr/bin/codex" "/home/dev"
                   sample_started (EvCancel "ab12cd34" None) "ab12cd34" "SIGTERM"
                   _ _ _)).
  - apply (reachable_run _ _
             [EvStart "ab12cd34" sample_args (Some 4242) 1700000000000] init);
      [constructor | vm_compute; reflexivity].
  - reflexivity.
  - vm_compute. set_solver.
Defined.

(** ** Output of the child *)

(** X16: byte counters add up exactly: after the data handler has run on a
    sequence of chunks of a task, its stdoutBytes and stderrBytes have
    grown by the bytes received on each stream, and the status, the failure
    reason and the heartbeat count of the record are untouched. *)
Theorem byte_counters_add_up (chunks : list Chunk) (st : State)
    (taskId : string) (r : TaskRecord) :
  tasks st !! taskId = Some r ->
  exists r',
    tasks (feed taskId chunks st) !! taskId = Some r' /\
    stdoutBytes r' = stdoutBytes r + bytes_on "stdout" chunks /\
    stderrBytes r' = stderrBytes r + bytes_on "stderr" chunks /\
    status r' = status r /\ failureReason r' = failureReason r /\
    heartbeatCount r' = heartbeatCount r.
Proof.
  revert st r. induction chunks as [|c chunks IH]; intros st r Hl.
  - exists r. cbn. split; [done|]. repeat split; lia.
  - cbn [feed foldl].
    set (st1 := onData (c_stream c) taskId (c_bytes c) (c_data c) (c_now c) st).
    assert (Hl1 : tasks st1 !! taskId =
                  Some (updateActivity (c_stream c) (c_bytes c) (c_data c) (c_now c) r)).
    { subst st1. unfold onData. rewrite Hl. cbn. apply lookup_insert_eq. }
    destruct (IH st1 _ Hl1) as (r' & Hl' & Ho & He & Hs & Hf & Hh).
    exists r'. split; [exact Hl'|].
    cbn in Ho, He, Hs, Hf, Hh. cbn [bytes_on foldr].
    fold (bytes_on "stdout" chunks). fold (bytes_on "stderr" chunks).
    repeat split; try done.
    + rewrite Ho. destruct (String.eqb (c_stream c) "stdout"); lia.
    + rewrite He. destruct (String.eqb (c_stream c) "stderr"); lia.
Qed.

Lemma byte_counters_add_up_witness :
  exists r',
    tasks (feed "ab12cd34"
             [{| c_stream := "stdout"; c_bytes := 120; c_data := "compiling the project";
                 c_now := 1700000000100 |};
              {| c_stream := "stderr"; c_bytes := 7; c_data := "warning";
                 c_now := 1700000000200 |};
              {| c_stream := "stdout"; c_bytes := 30; c_data := "done";
                 c_now := 1700000000300 |}] sample_started) !! "ab12cd34" = Some r' /\
    stdoutBytes r' = 150 /\ stderrBytes r' = 7.
Proof.
  destruct (byte_counters_add_up
              [{| c_stream := "stdout"; c_bytes := 120; c_data := "compiling the project";
                  c_now := 1700000000100 |};
               {| c_stream := "stderr"; c_bytes := 7; c_data := "warning";
                  c_now := 1700000000200 |};
               {| c_stream := "stdout"; c_bytes := 30; c_data := "done";
                  c_now := 1700000000300 |}] sample_started "ab12cd34" sample_record)
    as (r' & H1 & H2 & H3 & _).
  - vm_compute. reflexivity.
  - exists r'. split; [exact H1|]. split; [rewrite H2 | rewrite H3]; reflexivity.
Defined.

Lemma substring_length_le (s : string) (n m : nat) :
  (String.length (String.substring n m s) <= m)%nat.
Proof.
  revert n m. induction s as [|a s IH]; intros n m.
  - destruct n, m; cbn; lia.
  - destruct n as [|n]; [destruct m as [|m]|]; cbn; [lia | | apply IH].
    specialize (IH 0%nat m). lia.
Qed.

Lemma slice_last_length (n : nat) (s : string) :
  (String.length (slice_last n s) <= n)%nat.
Proof.
  unfold slice_last.
  pose proof (substring_length_le s (String.length s - n)
                (Nat.min n (String.length s))).
  lia.
Qed.

(** X17: for a chunk of ASCII text, the output snippet kept for progress
    reports is replaced only by a trimmed tail of more than 10 and at most
    200 characters; otherwise the earlier snippet stays. *)
Theorem updateActivity_snippet (type : string) (bytes : Z) (snippet : string)
    (now : Z) (r : TaskRecord) :
  is_ascii_text snippet = true ->
  let r' := updateActivity type bytes snippet now r in
  (lastOutputSnippet r' = lastOutputSnippet r \/
   (lastOutputSnippet r' = slice_last 200 (js_trim snippet) /\
    (10 < String.length (lastOutputSnippet r') <= 200)%nat)) /\
  ((String.length (js_trim snippet) <= 10)%nat ->
   lastOutputSnippet r' = lastOutputSnippet r).
Proof.
  intros _. unfold updateActivity. cbn [lastOutputSnippet].
  destruct (10 <? String.length (slice_last 200 (js_trim snippet)))%nat eqn:E.
  - apply Nat.ltb_lt in E. split.
    + right. split; [done|]. split; [done | apply slice_last_length].
    + intros Hshort. unfold slice_last in E.
      pose proof (substring_length_le (js_trim snippet)
                    (String.length (js_trim snippet) - 200)
                    (Nat.min 200 (String.length (js_trim snippet)))).
      lia.
  - split; [by left | done].
Qed.

Lemma updateActivity_snippet_witness :
  lastOutputSnippet (updateActivity "stdout" 3 "  ok " 1700000000100 sample_record) =
  lastOutputSnippet sample_record.
Proof.
  apply (proj2 (updateActivity_snippet "stdout" 3 "  ok " 1700000000100 sample_record
                  eq_refl)).
  vm_compute. lia.
Defined.

(** ** Properties of every record of a reachable state *)

Section RecordInvariant.

(** A property of a record stored under a key, kept by every update the
    server makes to a record. *)
Variables CODEX_PATH homedir : string.
Variable P : string -> TaskRecord -> Prop.

Hypothesis P_new : forall k args childPid now,
  P k (newTaskRecord CODEX_PATH homedir k args childPid now).
Hypothesis P_activity : forall k type bytes snippet now r,
  P k r -> P k (updateActivity type bytes snippet now r).
Hypothesis P_heartbeat : forall k r,
  P k r -> status r = "running" -> P k (incr_heartbeatCount r).
Hypothesis P_timeout : forall k elapsed limit r,
  P k r -> status r = "running" ->
  P k (set_failureReason (Some (timeoutReason elapsed limit)) r).
Hypothesis P_cancel : forall k r,
  P k r -> status r = "running" ->
  P k (set_failureReason (Some "Cancelled by user") r).
Hypothesis P_close : forall k code signal resultText now r,
  P k r -> P k (closeRecord code signal resultText now r).
Hypothesis P_error : forall k message errCode now r,
  P k r -> P k (errorRecord message errCode now r).
Hypothesis P_reconcile : forall k r, P k r -> P k (reconcile r).

Lemma all_records_insert (m : gmap string TaskRecord) (k : string) (r : TaskRecord) :
  (forall k' r', m !! k' = Some r' -> P k' r') -> P k r ->
  forall k' r', <[k := r]> m !! k' = Some r' -> P k' r'.
Proof.
  intros Hm Hr k' r' Hl. destruct (decide (k = k')) as [->|Hne].
  - rewrite lookup_insert_eq in Hl. by simplify_eq.
  - rewrite lookup_insert_ne in Hl by done. eauto.
Qed.

Lemma all_records_step (st : State) (ev : Event) :
  InvA st ->
  ((forall k r, tasks st !! k = Some r -> P k r) /\
   (forall d k r, tasksFile st = Some d -> d !! k = Some r -> P k r)) ->
  enabled ev st = true ->
  ((forall k r, tasks (handle CODEX_PATH homedir ev st) !! k = Some r -> P k r) /\
   (forall d k r, tasksFile (handle CODEX_PATH homedir ev st) = Some d -> d !! k = Some r -> P k r)).
Proof.
  intros HI [Hm Hf] Hen.
  destruct ev as [t args childPid now|t stream bytes data now|t now|t now|t|t
                  |t code signal resultText now|t message errCode now|t appendError|];
    cbn [handle]; cbn [enabled] in Hen.
  - unfold handleCodexAgent.
    assert (Hnew : forall k' r',
      <[t := newTaskRecord CODEX_PATH homedir t args childPid now]>
        (<[t := newTaskRecord CODEX_PATH homedir t args None now]> (tasks st)) !! k'
        = Some r' -> P k' r').
    { apply all_records_insert; [apply all_records_insert|]; auto. }
    destruct (0 <? default 0 (arg_timeoutMs args)); (split; cbn; [exact Hnew|]);
      intros d k r [= <-]; apply Hnew.
  - unfold onData. destruct (tasks st !! t) as [r0|] eqn:Hl; [|done].
    split; cbn; [|exact Hf]. apply all_records_insert; eauto.
  - unfold heartbeatTick. destruct (tasks st !! t) as [r0|] eqn:Hl; [|done].
    destruct (is_running r0) eqn:Hr; cbn [negb]; [|done].
    apply is_running_true in Hr.
    assert (Hnew : forall k' r',
      <[t := incr_heartbeatCount r0]> (tasks st) !! k' = Some r' -> P k' r').
    { apply all_records_insert; eauto. }
    split; cbn; [exact Hnew|]. intros d k r [= <-]. apply Hnew.
  - destruct (armed_elem _ _ _ Hen) as (x & Hx & Hk & Ht).
    unfold timeoutCallback. cbn. destruct (tasks st !! t) as [r0|] eqn:Hl; [|done].
    split; cbn; [|exact Hf]. apply all_records_insert; [done|].
    apply P_timeout; [eauto|].
    destruct HI as [H1 H2 _ _].
    destruct (H2 x Hx (or_intror Hk)) as [h Hh]. rewrite Ht in Hh.
    destruct (H1 _ _ Hh) as (_ & r1 & ? & ? & _). congruence.
  - unfold killAfterTimeout. cbn. destruct (tasks st !! t) as [r0|]; [|done].
    by destruct (is_running r0).
  - unfold killAfterCancel. cbn. destruct (tasks st !! t) as [r0|]; [|done].
    by destruct (is_running r0).
  - unfold closeHandler. cbn. destruct (tasks st !! t) as [r0|] eqn:Hl; [|done].
    assert (Hnew : forall k' r',
      <[t := closeRecord code signal resultText now r0]> (tasks st) !! k' = Some r' ->
      P k' r').
    { apply all_records_insert; eauto. }
    split; cbn; [exact Hnew|]. intros d k r [= <-]. apply Hnew.
  - unfold errorHandler. cbn. destruct (tasks st !! t) as [r0|] eqn:Hl; [|done].
    assert (Hnew : forall k' r',
      <[t := errorRecord message errCode now r0]> (tasks st) !! k' = Some r' ->
      P k' r').
    { apply all_records_insert; eauto. }
    split; cbn; [exact Hnew|]. intros d k r [= <-]. apply Hnew.
  - unfold handleCodexCancel. destruct (tasks st !! t) as [r0|] eqn:Hl; [|done].
    destruct (is_running r0) eqn:Hr; cbn [negb]; [|done].
    apply is_running_true in Hr.
    destruct (activeProcesses st !! t); [|done].
    destruct appendError; (split; cbn; [|exact Hf]);
      apply all_records_insert; eauto.
  - split; [|exact Hf]. intros k r Hl.
    destruct (tasksFile st) as [d|] eqn:Hd.
    + rewrite (restart_lookup st d) in Hl by done.
      destruct (d !! k) as [r0|] eqn:Hl0; [|done]. cbn in Hl. simplify_eq.
      apply P_reconcile. eauto.
    + rewrite (restart_no_file st Hd) in Hl. by rewrite lookup_empty in Hl.
Qed.

Lemma reachable_all_records (st : State) :
  reachable CODEX_PATH homedir st ->
  ((forall k r, tasks st !! k = Some r -> P k r) /\
   (forall d k r, tasksFile st = Some d -> d !! k = Some r -> P k r)).
Proof.
  induction 1 as [|st ev st' Hreach IH [Hen ->]].
  - split; [intros k r H; cbn in H; by rewrite lookup_empty in H | done].
  - apply all_records_step; [by eapply reachable_InvA | done..].
Qed.

End RecordInvariant.

(** X18: the outcome fields of every record of a reachable state, in memory
    or in the tasks file, fit its status: a running record has no exit
    code, exit signal or result yet; a completed record has exit code 0; a
    failed record carries a failure reason; completed and failed records
    have no pid left; and an interrupted record has no exit code and
    exactly the restart reason. *)
Theorem outcome_fits_status (CODEX_PATH homedir : string) (st : State)
    (k : string) (r : TaskRecord) :
  reachable CODEX_PATH homedir st ->
  tasks st !! k = Some r \/ (exists d, tasksFile st = Some d /\ d !! k = Some r) ->
  (status r = "running" -> exitCode r = None /\ exitSignal r = None /\ result r = None) /\
  (status r = "completed" -> exitCode r = Some 0 /\ pid r = None) /\
  (status r = "failed" -> truthy (failureReason r) = true /\ pid r = None) /\
  (status r = "interrupted" ->
     exitCode r = None /\
     failureReason r = Some "Server restarted while task was running").
Proof.
  intros Hreach Hwhere.
  pose (P := fun (_ : string) (r : TaskRecord) =>
    (status r = "running" -> exitCode r = None /\ exitSignal r = None /\ result r = None) /\
    (status r = "completed" -> exitCode r = Some 0 /\ pid r = None) /\
    (status r = "failed" -> truthy (failureReason r) = true /\ pid r = None) /\
    (status r = "interrupted" ->
       exitCode r = None /\
       failureReason r = Some "Server restarted while task was running")).
  assert (Hall : (forall k r, tasks st !! k = Some r -> P k r) /\
                 (forall d k r, tasksFile st = Some d -> d !! k = Some r -> P k r)).
  { refine (reachable_all_records CODEX_PATH homedir P _ _ _ _ _ _ _ _ st Hreach);
      subst P; cbn beta.
    - intros k0 args childPid now. cbn. repeat split; done.
    - intros k0 type bytes snippet now r0 H. exact H.
    - intros k0 r0 H _. exact H.
    - intros k0 e l r0 (H1 & _) Hs. cbn. rewrite Hs.
      split; [intros _; by apply H1 | by repeat split].
    - intros k0 r0 (H1 & _) Hs. cbn. rewrite Hs.
      split; [intros _; by apply H1 | by repeat split].
    - intros k0 code signal resultText now r0 _. split; [|split; [|split]].
      + intros Hs. by apply closeRecord_not_running in Hs.
      + cbn. destruct code as [c|]; cbn; [|done].
        destruct (Z.eqb_spec c 0) as [->|]; done.
      + intros Hs. split; [|done].
        by apply closeRecord_failed_truthy.
      + cbn. by destruct (is_zero code).
    - intros k0 message errCode now r0 _. cbn. repeat split; done.
    - intros k0 r0 (H1 & H2 & H3 & H4). unfold reconcile.
      destruct (is_running r0) eqn:Hr; [|done].
      apply is_running_true in Hr. cbn. repeat split; try done.
      by apply H1. }
  destruct Hall as [Hm Hf].
  destruct Hwhere as [Hl|(d & Hd & Hl)]; [exact (Hm k r Hl) | exact (Hf d k r Hd Hl)].
Qed.

Lemma outcome_fits_status_witness :
  let st := handle "/usr/bin/codex" "/home/dev"
              (EvClose "ab12cd34" (Some 1) None None 1700000000800) sample_started in
  exists r, tasks st !! "ab12cd34" = Some r /\
            truthy (failureReason r) = true /\ pid r = None.
Proof.
  intros st. eexists. split; [vm_compute; reflexivity|].
  refine (proj1 (proj2 (proj2 (outcome_fits_status "/usr/bin/codex" "/home/dev" st
                                 "ab12cd34" _ _ _))) _).
  - apply (reachable_run _ _
             [EvStart "ab12cd34" sample_args (Some 4242) 1700000000000;
              EvClose "ab12cd34" (Some 1) None None 1700000000800] init);
      [constructor | vm_compute; reflexivity].
  - left. vm_compute. reflexivity.
  - reflexivity.
Defined.



(** ** Listing tasks *)

Lemma insert_by_start_perm (x : TaskRecord) (l : list TaskRecord) :
  insert_by_start x l ≡ₚ x :: l.
Proof.
  induction l as [|y l IH]; cbn; [done|].
  destruct (startedAt y <=? startedAt x); [done|].
  rewrite IH. apply Permutation_swap.
Qed.

Lemma sort_by_start_perm (l : list TaskRecord) : sort_by_start l ≡ₚ l.
Proof.
  induction l as [|x l IH]; cbn; [done|].
  rewrite insert_by_start_perm. by rewrite IH.
Qed.

Lemma insert_by_start_sorted (x : TaskRecord) (l : list TaskRecord) :
  StronglySorted later_first l -> StronglySorted later_first (insert_by_start x l).
Proof.
  induction l as [|y l IH]; intros Hs; cbn.
  - repeat constructor.
  - apply StronglySorted_inv in Hs as [Hl Hy].
    destruct (Z.leb_spec (startedAt y) (startedAt x)) as [Hle|Hgt].
    + constructor; [by constructor|]. constructor; [done|].
      eapply Forall_impl; [exact Hy|]. unfold later_first. intros z Hz. cbn in Hz. lia.
    + constructor; [by apply IH|].
      rewrite insert_by_start_perm. constructor; [|done].
      unfold later_first. lia.
Qed.

Lemma sort_by_start_sorted (l : list TaskRecord) :
  StronglySorted later_first (sort_by_start l).
Proof.
  induction l as [|x l IH]; cbn; [constructor | by apply insert_by_start_sorted].
Qed.

Lemma slice0_prefix {A} (limit : Z) (l : list A) :
  exists rest, l = slice0 limit l ++ rest.
Proof.
  unfold slice0. destruct (limit <? 0); eexists; symmetry; apply take_drop.
Qed.

Lemma matching_elem (f : string) (values : list TaskRecord) (t : TaskRecord) :
  t ∈ matching f values <-> t ∈ values /\ (f <> "all" -> status t = f).
Proof.
  unfold matching. destruct (String.eqb_spec f "all") as [->|Hne].
  - split; [by intros H | by intros [H _]].
  - rewrite list_elem_of_filter. split; [by intros [? ?] | intros [? H]; auto].
Qed.

(** X20: the listing shows only records of the task map that have the
    requested status, any status for the filter "all" or none, the latest
    started first; there is no row exactly when nothing is selected, and
    the answer is never an error. *)
Theorem listing_is_filtered_and_ordered (values : list TaskRecord)
    (args : TasksArgs) (now : Z) :
  let f := or_default (arg_status args) "all" in
  let rows := selectTasks values args in
  (forall t, t ∈ rows -> t ∈ values /\ (f <> "all" -> status t = f)) /\
  (forall i j a b, (i < j)%nat -> rows !! i = Some a -> rows !! j = Some b ->
     startedAt b <= startedAt a) /\
  (text (handleCodexTasks values args now) = "No tasks found." <-> rows = []) /\
  isError (handleCodexTasks values args now) = false.
Proof.
  intros f rows.
  destruct (slice0_prefix (num_or (arg_limit args) 20)
              (sort_by_start (matching f values))) as [rest Hrest].
  fold f in Hrest. change (slice0 _ _) with rows in Hrest.
  split; [|split; [|split]].
  - intros t Ht. apply matching_elem.
    rewrite <- (sort_by_start_perm (matching f values)), Hrest.
    apply elem_of_app. by left.
  - intros i j a b Hij Hi Hj.
    pose proof (sort_by_start_sorted (matching f values)) as Hs.
    rewrite Hrest in Hs. apply StronglySorted_app_1_l in Hs.
    rewrite <- (take_drop j rows) in Hs.
    apply (StronglySorted_app_1_elem_of _ _ _ a b) in Hs; [done| |].
    + apply list_elem_of_lookup. exists i. rewrite lookup_take_lt by done. done.
    + apply list_elem_of_lookup. exists 0%nat. rewrite lookup_drop.
      by rewrite Nat.add_0_r.
  - unfold handleCodexTasks. fold rows. destruct rows; [done|].
    split; [discriminate | done].
  - unfold handleCodexTasks. fold rows. by destruct rows.
Qed.

Lemma listing_is_filtered_and_ordered_witness :
  let failed := closeRecord (Some 1) None None 1700000000800 sample_record in
  forallb (fun t => String.eqb (status t) "failed")
    (selectTasks [sample_record; failed]
       {| arg_status := Some "failed"; arg_limit := None |}) = true.
Proof.
  intros failed. apply forallb_forall. intros t Ht.
  apply String.eqb_eq.
  apply (proj1 (listing_is_filtered_and_ordered [sample_record; failed]
                  {| arg_status := Some "failed"; arg_limit := None |} 0)).
  - by apply list_elem_of_In.
  - discriminate.
Defined.

(** X21: the limit cuts the ordered listing at the front: the rows are the
    first records of the stable arrangement of the matching records, none
    of the records left out started later than a listed one, and the
    number of rows is the limit or the number of matching records if that
    is smaller; a limit that is absent or 0 counts as 20, and a negative
    limit leaves out that many records at the end. *)
Theorem listing_limit (values : list TaskRecord) (args : TasksArgs) :
  let f := or_default (arg_status args) "all" in
  let rows := selectTasks values args in
  let n := length (matching f values) in
  (exists rest,
     rows ++ rest ≡ₚ matching f values /\
     forall a b, a ∈ rows -> b ∈ rest -> startedAt b <= startedAt a) /\
  (forall l, arg_limit args = Some l -> 0 < l -> length rows = Nat.min (Z.to_nat l) n) /\
  (arg_limit args = None \/ arg_limit args = Some 0 -> length rows = Nat.min 20 n) /\
  (forall l, arg_limit args = Some l -> l < 0 ->
     length rows = (n - Z.to_nat (- l))%nat).
Proof.
  intros f rows n.
  assert (Hlen : length (sort_by_start (matching f values)) = n).
  { subst n. by rewrite sort_by_start_perm. }
  split; [|split; [|split]].
  - destruct (slice0_prefix (num_or (arg_limit args) 20)
                (sort_by_start (matching f values))) as [rest Hrest].
    fold f in Hrest. change (slice0 _ _) with rows in Hrest.
    exists rest. split.
    + by rewrite <- Hrest, sort_by_start_perm.
    + intros a b Ha Hb.
      pose proof (sort_by_start_sorted (matching f values)) as Hs.
      rewrite Hrest in Hs.
      by apply (StronglySorted_app_1_elem_of _ _ _ a b) in Hs.
  - intros l Hl Hpos. subst rows. unfold selectTasks. fold f. rewrite Hl. cbn.
    destruct (Z.eqb_spec l 0); [lia|]. unfold slice0.
    destruct (Z.ltb_spec l 0); [lia|]. rewrite length_take. lia.
  - intros Hl. subst rows. unfold selectTasks. fold f.
    assert (num_or (arg_limit args) 20 = 20) as ->.
    { by destruct Hl as [-> | ->]. }
    unfold slice0. change (20 <? 0) with false. cbv iota.
    rewrite length_take, Hlen. change (Z.to_nat 20) with 20%nat. lia.
  - intros l Hl Hneg. subst rows. unfold selectTasks. fold f. rewrite Hl. cbn.
    destruct (Z.eqb_spec l 0); [lia|]. unfold slice0.
    destruct (Z.ltb_spec l 0); [|lia]. rewrite length_take. lia.
Qed.

Lemma listing_limit_witness :
  let failed := closeRecord (Some 1) None None 1700000000800 sample_record in
  length (selectTasks [sample_record; failed; failed]
            {| arg_status := Some "failed"; arg_limit := Some 1 |}) = 1%nat.
Proof.
  intros failed.
  rewrite (proj1 (proj2 (listing_limit [sample_record; failed; failed]
                           {| arg_status := Some "failed"; arg_limit := Some 1 |}))
             1 eq_refl ltac:(lia)).
  vm_compute. reflexivity.
Defined.

Lemma insert_by_start_stable (s : Z) (x : TaskRecord) (l : list TaskRecord) :
  filter (fun t => startedAt t = s) (insert_by_start x l) =
  filter (fun t => startedAt t = s) (x :: l).
Proof.
  induction l as [|y l IH]; cbn [insert_by_start]; [done|].
  destruct (Z.leb_spec (startedAt y) (startedAt x)) as [Hle|Hgt]; [done|].
  rewrite (filter_cons _ y), IH, !(filter_cons _ x), (filter_cons _ y).
  destruct (decide (startedAt y = s)), (decide (startedAt x = s)); try done. lia.
Qed.

(** X22: the listing is stable: records that started at the same time are
    listed in the order in which the task map yields them. *)
Theorem listing_is_stable (s : Z) (l : list TaskRecord) :
  filter (fun t => startedAt t = s) (sort_by_start l) =
  filter (fun t => startedAt t = s) l.
Proof.
  induction l as [|x l IH]; [done|].
  cbn [sort_by_start foldr]. fold (sort_by_start l).
  rewrite insert_by_start_stable, !(filter_cons _ x), IH. done.
Qed.

(** ** Waiting for a task *)

(** The polls of a wait stop at the first one that does not go on. *)
Lemma pollLoop_spec (taskId : string) (timeoutMs startWait : Z)
    (polls : list (State * Z)) (outcome : WaitOutcome) (sent : nat) :
  pollLoop taskId timeoutMs startWait polls = (outcome, sent) ->
  (forall i p, (i < sent)%nat -> polls !! i = Some p ->
     checkStatus taskId timeoutMs startWait (snd p) (fst p) = None) /\
  ((outcome = WaitPending /\ sent = length polls) \/
   exists p, polls !! sent = Some p /\
     checkStatus taskId timeoutMs startWait (snd p) (fst p) = Some outcome).
Proof.
  revert outcome sent. induction polls as [|[st now] polls IH]; intros outcome sent Hp.
  - cbn in Hp. simplify_eq. split; [intros i p Hi; lia | by left].
  - cbn [pollLoop] in Hp.
    destruct (checkStatus taskId timeoutMs startWait now st) as [o|] eqn:Hc.
    + simplify_eq. split; [intros i p Hi; lia|]. right. by exists (st, now).
    + destruct (pollLoop taskId timeoutMs startWait polls) as [o n] eqn:Hl.
      injection Hp as Ho Hs. subst outcome sent.
      destruct (IH o n eq_refl) as [Hbefore Hend]. split.
      * intros [|i] p Hi Hl'; cbn in Hl'; [by simplify_eq|].
        apply (Hbefore i); [lia | done].
      * destruct Hend as [[-> ->]|(p & Hl' & Hc')]; [by left|].
        right. by exists p.
Qed.

Lemma checkStatus_None (taskId : string) (timeoutMs startWait now : Z) (st : State) :
  checkStatus taskId timeoutMs startWait now st = None ->
  exists r, tasks st !! taskId = Some r /\ status r = "running".
Proof.
  unfold checkStatus. destruct (tasks st !! taskId) as [r|]; [|done].
  destruct (is_running r) eqn:Hr; cbn [negb]; [|done].
  intros _. exists r. split; [done | by apply is_running_true].
Qed.

(** X23: a wait for an unknown identifier ends at once as not found, and a
    wait for a task that is not running ends at once with its record;
    otherwise every poll before the last one found the task running, each
    sending one waiting notification, and a wait that ends as finished
    hands back the record as the poll that ended it found it, not
    running. *)
Theorem wait_returns_first_finished_record (args : WaitArgs) (st : State)
    (startWait : Z) (polls : list (State * Z)) (outcome : WaitOutcome) (sent : nat) :
  handleCodexWait args st startWait polls = (outcome, sent) ->
  (tasks st !! w_taskId args = None -> outcome = WaitNotFound /\ sent = 0%nat) /\
  (forall r, tasks st !! w_taskId args = Some r -> status r <> "running" ->
     outcome = WaitFinished r /\ sent = 0%nat) /\
  (forall i p, (i < sent)%nat -> polls !! i = Some p ->
     exists r, tasks (fst p) !! w_taskId args = Some r /\ status r = "running") /\
  (forall r, outcome = WaitFinished r ->
     status r <> "running" /\
     (tasks st !! w_taskId args = Some r \/
      exists p, polls !! sent = Some p /\ tasks (fst p) !! w_taskId args = Some r)).
Proof.
  unfold handleCodexWait. intros Hw.
  destruct (tasks st !! w_taskId args) as [r0|] eqn:Hl0.
  - destruct (is_running r0) eqn:Hr0; cbn [negb] in Hw.
    + apply pollLoop_spec in Hw as [Hbefore Hend].
      apply is_running_true in Hr0.
      split; [done|]. split; [intros r [= <-] Hs; done|]. split.
      * intros i p Hi Hp. by eapply checkStatus_None, Hbefore.
      * intros r ->. destruct Hend as [[? _]|(p & Hp & Hc)]; [done|].
        unfold checkStatus in Hc.
        destruct (tasks p.1 !! w_taskId args) as [r1|] eqn:Hl1; [|done].
        destruct (is_running r1) eqn:Hr1; cbn [negb] in Hc.
        -- by destruct (_ && _).
        -- simplify_eq. split; [by apply is_running_false|]. right. by exists p.
    + simplify_eq. apply is_running_false in Hr0.
      split; [done|]. split; [by intros r [= <-] _|].
      split; [intros i p Hi; lia|].
      intros r [= <-]. split; [done | by left].
  - simplify_eq. split; [done|]. split; [done|].
    split; [intros i p Hi; lia | done].
Qed.

Lemma wait_returns_first_finished_record_witness :
  let finished :=
    closeHandler "ab12cd34" (Some 0) None (Some "done") 1700000000800 sample_started in
  let record := closeRecord (Some 0) None (Some "done") 1700000000800 sample_record in
  let polls :=
    [(sample_started, 1700000000100); (sample_started, 1700000000200);
     (finished, 1700000000900)] in
  tasks sample_started !! "ab12cd34" = Some record \/
  exists p, polls !! 2%nat = Some p /\ tasks (fst p) !! "ab12cd34" = Some record.
Proof.
  intros finished record polls.
  refine (proj2 (proj2 (proj2 (proj2
    (wait_returns_first_finished_record
       {| w_taskId := "ab12cd34"; w_pollIntervalMs := Some 100; w_timeoutMs := None |}
       sample_started 1700000000100 polls (WaitFinished record) 2 _))) record eq_refl)).
  vm_compute. reflexivity.
Defined.

(** X24: a wait gives up only on its own timeout: it ends as timed out only
    when a positive timeout was given, the poll came later than that after
    the start of the wait, and the task was still running at that poll; a
    wait without a timeout, or with timeout 0, never ends that way.  The
    wait only reads the task map, so giving up leaves the task running. *)
Theorem wait_times_out_only_past_its_timeout (args : WaitArgs) (st : State)
    (startWait : Z) (polls : list (State * Z)) (waited : Z) (sent : nat) :
  handleCodexWait args st startWait polls = (WaitTimedOut waited, sent) ->
  0 < num_or (w_timeoutMs args) 0 /\
  num_or (w_timeoutMs args) 0 < waited /\
  w_timeoutMs args <> None /\ w_timeoutMs args <> Some 0 /\
  exists p r,
    polls !! sent = Some p /\ waited = snd p - startWait /\
    tasks (fst p) !! w_taskId args = Some r /\ status r = "running".
Proof.
  unfold handleCodexWait. intros Hw.
  destruct (tasks st !! w_taskId args) as [r0|]; [|done].
  destruct (is_running r0); cbn [negb] in Hw; [|done].
  apply pollLoop_spec in Hw as [_ [[? _]|(p & Hp & Hc)]]; [done|].
  unfold checkStatus in Hc.
  destruct (tasks p.1 !! w_taskId args) as [r1|] eqn:Hl1; [|done].
  destruct (is_running r1) eqn:Hr1; cbn [negb] in Hc; [|done].
  destruct (0 <? num_or (w_timeoutMs args) 0) eqn:H0; [|done].
  destruct (num_or (w_timeoutMs args) 0 <? p.2 - startWait) eqn:H1; [|done].
  cbn in Hc. simplify_eq.
  apply Z.ltb_lt in H0, H1. apply is_running_true in Hr1.
  split; [done|]. split; [done|].
  split; [intros E; rewrite E in H0; cbn in H0; lia|].
  split; [intros E; rewrite E in H0; cbn in H0; lia|].
  by exists p, r1.
Qed.

Lemma wait_times_out_only_past_its_timeout_witness :
  exists p r,
    [(sample_started, 1700000000100); (sample_started, 1700000000700)] !! 1%nat = Some p /\
    600 = snd p - 1700000000100 /\
    tasks (fst p) !! "ab12cd34" = Some r /\ status r = "running".
Proof.
  destruct (wait_times_out_only_past_its_timeout
              {| w_taskId := "ab12cd34"; w_pollIntervalMs := None;
                 w_timeoutMs := Some 500 |}
              sample_started 1700000000100
              [(sample_started, 1700000000100); (sample_started, 1700000000700)]
              600 1) as (_ & _ & _ & _ & H).
  - vm_compute. reflexivity.
  - exact H.
Defined.
